(** * etok: workspace reconciliation and workspace creation

    A shallow embedding of the workspace controller's [Reconcile] and
    [newPVCForCR] (package workspace), of the [workspace new] command
    ([newCmd], [run], [cleanup], the create-if-missing helpers), and of the
    parts of the later controller that the repository only exercises through
    its tests (health condition, backend config map).

    API calls are effects: every operation that talks to the cluster is run
    against a client interface over an abstract cluster state and leaves an
    entry in a call trace. *)

From Stdlib Require Import ZArith String Ascii List Bool Lia.
From stdpp Require Import gmap strings list fin_maps sorting.

Local Open Scope string_scope.
Local Open Scope list_scope.

(** ** API machinery shared by controller and client *)

(** k8s.io/apimachinery/pkg/api/errors: the status reasons the code tells
    apart, every other failure carries its message. *)
Inductive APIError : Type :=
| NotFound
| AlreadyExists
| OtherError (reason : string).

Definition IsNotFound (e : APIError) : bool :=
  match e with NotFound => true | _ => false end.

Definition IsAlreadyExists (e : APIError) : bool :=
  match e with AlreadyExists => true | _ => false end.

(** types.NamespacedName: (namespace, name). *)
Abbreviation NamespacedName := (string * string)%type.

Inductive ConditionStatus : Type :=
| ConditionTrue
| ConditionFalse
| ConditionUnknown.

Record Condition : Type := {
  cond_Type : string;
  cond_Status : ConditionStatus;
  cond_LastTransitionTime : Z
}.

Definition ConditionStatus_eqb (a b : ConditionStatus) : bool :=
  match a, b with
  | ConditionTrue, ConditionTrue
  | ConditionFalse, ConditionFalse
  | ConditionUnknown, ConditionUnknown => true
  | _, _ => false
  end.

Definition ConditionCompleted : string := "Completed".
Definition ConditionHealthy : string := "Healthy".

(** Modelled from the spec: the condition set of the operator-sdk status
    package, which is not part of the sources. At most one condition per type;
    setting a condition whose status is unchanged keeps the transition time. *)
Fixpoint GetCondition (cs : list Condition) (t : string) : option Condition :=
  match cs with
  | [] => None
  | c :: rest => if String.eqb (cond_Type c) t then Some c else GetCondition rest t
  end.

Fixpoint SetCondition (cs : list Condition) (new : Condition) : list Condition :=
  match cs with
  | [] => [new]
  | c :: rest =>
      if String.eqb (cond_Type c) (cond_Type new) then
        (if ConditionStatus_eqb (cond_Status c) (cond_Status new)
         then {| cond_Type := cond_Type new;
                 cond_Status := cond_Status new;
                 cond_LastTransitionTime := cond_LastTransitionTime c |}
         else new) :: rest
      else c :: SetCondition rest new
  end.

Definition IsTrueFor (cs : list Condition) (t : string) : bool :=
  match GetCondition cs t with
  | Some c => ConditionStatus_eqb (cond_Status c) ConditionTrue
  | None => false
  end.

(** ** The workspace controller (package workspace) *)

Module Reconciler.

Record OwnerReference : Type := {
  or_Kind : string;
  or_Name : string;
  or_Controller : bool;
  or_BlockOwnerDeletion : bool
}.

Record ObjectMeta : Type := {
  Name : string;
  Namespace : string;
  Labels : gmap string string;
  OwnerReferences : list OwnerReference;
  CreationTimestamp : Z
}.

(** pkg/apis/stok/v1alpha1/workspace_types.go *)
Record WorkspaceCacheSpec : Type := {
  StorageClass : string;
  Size : string
}.

Record WorkspaceSpec : Type := {
  SecretName : string;
  Cache : WorkspaceCacheSpec
}.

Record WorkspaceStatus : Type := {
  Queue : list string
}.

Record Workspace : Type := {
  ws_ObjectMeta : ObjectMeta;
  ws_Spec : WorkspaceSpec;
  ws_Status : WorkspaceStatus
}.

(** Modelled from the spec: the Command type, whose declaration is not part
    of the sources. The controller reads its name, its namespace and
    [Spec.Workspace]; the label linking it to a workspace and the Completed
    condition are the ones the spec and the controller tests name. *)
Record CommandSpec : Type := {
  cmd_Workspace : string
}.

Record Command : Type := {
  cmd_ObjectMeta : ObjectMeta;
  cmd_Spec : CommandSpec;
  cmd_Conditions : list Condition
}.

Inductive PersistentVolumeAccessMode : Type :=
| ReadWriteOnce
| ReadOnlyMany
| ReadWriteMany.

Definition ResourceStorage : string := "storage".

(** A resource.Quantity is kept as its canonical text. *)
Record ResourceRequirements : Type := {
  Requests : gmap string string
}.

Record PersistentVolumeClaimSpec : Type := {
  AccessModes : list PersistentVolumeAccessMode;
  Resources : ResourceRequirements;
  StorageClassName : option string
}.

Record PersistentVolumeClaim : Type := {
  pvc_ObjectMeta : ObjectMeta;
  pvc_Spec : PersistentVolumeClaimSpec
}.

Definition ws_Name (w : Workspace) : string := Name (ws_ObjectMeta w).
Definition ws_Namespace (w : Workspace) : string := Namespace (ws_ObjectMeta w).
Definition ws_Key (w : Workspace) : NamespacedName := (ws_Namespace w, ws_Name w).
Definition cmd_Name (c : Command) : string := Name (cmd_ObjectMeta c).
Definition cmd_Namespace (c : Command) : string := Namespace (cmd_ObjectMeta c).
Definition pvc_Name (p : PersistentVolumeClaim) : string := Name (pvc_ObjectMeta p).
Definition pvc_Namespace (p : PersistentVolumeClaim) : string := Namespace (pvc_ObjectMeta p).
Definition pvc_Key (p : PersistentVolumeClaim) : NamespacedName := (pvc_Namespace p, pvc_Name p).

Definition storageRequest (p : PersistentVolumeClaim) : option string :=
  Requests (Resources (pvc_Spec p)) !! ResourceStorage.

(** func newPVCForCR(cr *Workspace) *PersistentVolumeClaim *)
Definition newPVCForCR (cr : Workspace) : PersistentVolumeClaim :=
  let labels : gmap string string := {[ "app" := ws_Name cr ]} in
  {| pvc_ObjectMeta :=
       {| Name := ws_Name cr +:+ "-pvc";
          Namespace := ws_Namespace cr;
          Labels := labels;
          OwnerReferences := [];
          CreationTimestamp := 0%Z |};
     pvc_Spec :=
       {| AccessModes := [ReadWriteOnce];
          Resources := {| Requests := {[ ResourceStorage := "1Gi" ]} |};
          StorageClassName := None |} |}.

(** runtime.Scheme: the kinds registered with it. *)
Definition Scheme : Type := list string.

Definition kindRegistered (s : Scheme) (kind : string) : bool :=
  existsb (String.eqb kind) s.

(** controllerutil.SetControllerReference: the owner's kind must be known to
    the scheme and the object must not be controlled by another owner. *)
Definition sameOwner (a b : OwnerReference) : bool :=
  String.eqb (or_Kind a) (or_Kind b) && String.eqb (or_Name a) (or_Name b).

Definition SetControllerReference (owner : Workspace) (object : PersistentVolumeClaim)
    (s : Scheme) : APIError + PersistentVolumeClaim :=
  if kindRegistered s "Workspace" then
    let ref := {| or_Kind := "Workspace"; or_Name := ws_Name owner;
                  or_Controller := true; or_BlockOwnerDeletion := true |} in
    let meta := pvc_ObjectMeta object in
    if existsb (fun r => or_Controller r && negb (sameOwner r ref)) (OwnerReferences meta)
    then inl (OtherError "object is already owned by another controller")
    else
      inr {| pvc_ObjectMeta :=
               {| Name := Name meta; Namespace := Namespace meta; Labels := Labels meta;
                  OwnerReferences :=
                    filter (fun r => negb (sameOwner r ref)) (OwnerReferences meta) ++ [ref];
                  CreationTimestamp := CreationTimestamp meta |};
             pvc_Spec := pvc_Spec object |}
  else inl (OtherError "no kind is registered for the type Workspace").

(** *** The client interface and the effect of calling it *)

(** sigs.k8s.io/controller-runtime/pkg/client.Client, restricted to the calls
    Reconcile makes, over a cluster state [St]. Reads do not change the
    cluster; Create and Status().Update may. *)
Record Client (St : Type) : Type := {
  GetWorkspace : NamespacedName -> St -> APIError + Workspace;
  GetPVC : NamespacedName -> St -> APIError + PersistentVolumeClaim;
  Create : PersistentVolumeClaim -> St -> option APIError * St;
  List : string -> St -> APIError + list Command;
  StatusUpdate : Workspace -> St -> option APIError * St
}.
Arguments GetWorkspace {St}.
Arguments GetPVC {St}.
Arguments Create {St}.
Arguments List {St}.
Arguments StatusUpdate {St}.

Inductive Call : Type :=
| CallGetWorkspace (key : NamespacedName)
| CallGetPVC (key : NamespacedName)
| CallCreate (pvc : PersistentVolumeClaim)
| CallList (namespace : string)
| CallStatusUpdate (ws : Workspace).

(** An action reads and updates the cluster and appends to the call trace. *)
Definition Action (St A : Type) : Type := St -> A * St * list Call.

Definition ret {St A} (a : A) : Action St A := fun st => (a, st, []).

Definition bind {St A B} (m : Action St A) (k : A -> Action St B) : Action St B :=
  fun st =>
    let '(a, st1, t1) := m st in
    let '(b, st2, t2) := k a st1 in
    (b, st2, t1 ++ t2).

#[local] Notation "'let*' x ':=' m 'in' k" := (bind m (fun x => k))
  (at level 10, x name, m at level 200, k at level 200).

Definition doGetWorkspace {St} (c : Client St) (key : NamespacedName)
    : Action St (APIError + Workspace) :=
  fun st => (GetWorkspace c key st, st, [CallGetWorkspace key]).

Definition doGetPVC {St} (c : Client St) (key : NamespacedName)
    : Action St (APIError + PersistentVolumeClaim) :=
  fun st => (GetPVC c key st, st, [CallGetPVC key]).

Definition doCreate {St} (c : Client St) (pvc : PersistentVolumeClaim)
    : Action St (option APIError) :=
  fun st => let '(e, st') := Create c pvc st in (e, st', [CallCreate pvc]).

Definition doList {St} (c : Client St) (namespace : string)
    : Action St (APIError + list Command) :=
  fun st => (List c namespace st, st, [CallList namespace]).

Definition doStatusUpdate {St} (c : Client St) (ws : Workspace)
    : Action St (option APIError) :=
  fun st => let '(e, st') := StatusUpdate c ws st in (e, st', [CallStatusUpdate ws]).

Record ReconcileWorkspace (St : Type) : Type := {
  client : Client St;
  scheme : Scheme
}.
Arguments client {St}.
Arguments scheme {St}.

(** reconcile.Result *)
Record Result : Type := { Requeue : bool }.
Definition emptyResult : Result := {| Requeue := false |}.

Definition withQueue (w : Workspace) (q : list string) : Workspace :=
  {| ws_ObjectMeta := ws_ObjectMeta w;
     ws_Spec := ws_Spec w;
     ws_Status := {| Queue := q |} |}.

(** The loop of lines 149-152: the queue starts empty and the name of every
    listed item is appended in turn. *)
Definition appendNames (items : list Command) : list string :=
  fold_left (fun queue item => queue ++ [cmd_Name item]) items [].

(** func (r *ReconcileWorkspace) Reconcile(request) (reconcile.Result, error) *)
Definition Reconcile {St} (r : ReconcileWorkspace St) (request : NamespacedName)
    : Action St (Result * option APIError) :=
  let* got := doGetWorkspace (client r) request in
  match got with
  | inl err =>
      if IsNotFound err then ret (emptyResult, None)
      else ret (emptyResult, Some err)
  | inr instance =>
      let pvc := newPVCForCR instance in
      match SetControllerReference instance pvc (scheme r) with
      | inl err => ret (emptyResult, Some err)
      | inr pvc =>
          let* found := doGetPVC (client r) (pvc_Namespace pvc, pvc_Name pvc) in
          match found with
          | inl err =>
              if IsNotFound err then
                let* cerr := doCreate (client r) pvc in
                match cerr with
                | Some err => ret (emptyResult, Some err)
                | None => ret (emptyResult, None)
                end
              else ret (emptyResult, Some err)
          | inr _ =>
              let* cmdList := doList (client r) (fst request) in
              match cmdList with
              | inl err => ret (emptyResult, Some err)
              | inr items =>
                  let* updated :=
                    (if (0 <? length items)%nat
                     then
                       let* uerr := doStatusUpdate (client r)
                                      (withQueue instance (appendNames items)) in
                       ret tt
                     else ret tt) in
                  ret (emptyResult, None)
              end
          end
      end
  end.

(** *** A cluster to run the reconciler against

    One object store, as the fake client of the controller tests keeps it,
    and the claims that another actor creates between the reconciler's
    existence check and its create call ([interference]); a cluster nobody
    else writes to has none. *)
Record Cluster : Type := {
  workspaces : gmap NamespacedName Workspace;
  pvcs : gmap NamespacedName PersistentVolumeClaim;
  commands : list Command;
  interference : list PersistentVolumeClaim
}.

Definition quiescent (c : Cluster) : Prop := interference c = [].

Definition fakeGetWorkspace (key : NamespacedName) (c : Cluster) : APIError + Workspace :=
  match workspaces c !! key with
  | Some w => inr w
  | None => inl NotFound
  end.

Definition fakeGetPVC (key : NamespacedName) (c : Cluster)
    : APIError + PersistentVolumeClaim :=
  match pvcs c !! key with
  | Some p => inr p
  | None => inl NotFound
  end.

Definition otherActorsCreate (c : Cluster) : gmap NamespacedName PersistentVolumeClaim :=
  fold_left (fun store p =>
               match store !! pvc_Key p with
               | Some _ => store
               | None => <[ pvc_Key p := p ]> store
               end)
            (interference c) (pvcs c).

Definition fakeCreate (p : PersistentVolumeClaim) (c : Cluster) : option APIError * Cluster :=
  let store := otherActorsCreate c in
  match store !! pvc_Key p with
  | Some _ =>
      (Some AlreadyExists,
       {| workspaces := workspaces c; pvcs := store;
          commands := commands c; interference := [] |})
  | None =>
      (None,
       {| workspaces := workspaces c; pvcs := <[ pvc_Key p := p ]> store;
          commands := commands c; interference := [] |})
  end.

(** client.ListOptions{Namespace: ns}: the empty namespace lists all. *)
Definition inNamespace (ns : string) (cmd : Command) : bool :=
  String.eqb ns "" || String.eqb (cmd_Namespace cmd) ns.

Definition fakeList (ns : string) (c : Cluster) : APIError + list Command :=
  inr (List.filter (inNamespace ns) (commands c)).

Definition fakeStatusUpdate (w : Workspace) (c : Cluster) : option APIError * Cluster :=
  match workspaces c !! ws_Key w with
  | Some stored =>
      (None,
       {| workspaces :=
            <[ ws_Key w := {| ws_ObjectMeta := ws_ObjectMeta stored;
                              ws_Spec := ws_Spec stored;
                              ws_Status := ws_Status w |} ]> (workspaces c);
          pvcs := pvcs c; commands := commands c; interference := interference c |})
  | None => (Some NotFound, c)
  end.

Definition fakeClient : Client Cluster := {|
  GetWorkspace := fakeGetWorkspace;
  GetPVC := fakeGetPVC;
  Create := fakeCreate;
  List := fakeList;
  StatusUpdate := fakeStatusUpdate
|}.

Definition registeredScheme : Scheme := ["Workspace"; "Command"].

Definition fakeReconciler (s : Scheme) : ReconcileWorkspace Cluster :=
  {| client := fakeClient; scheme := s |}.

Definition reconciler : ReconcileWorkspace Cluster := fakeReconciler registeredScheme.

(** One pass over a cluster, and the pass that follows it with nothing else
    touching the cluster in between. *)
Definition pass (s : Scheme) (request : NamespacedName) (c : Cluster)
    : Result * option APIError * Cluster * list Call :=
  Reconcile (fakeReconciler s) request c.

(** What a pass returned, the cluster it left and the calls it made. *)
Definition returned {St A} (out : A * St * list Call) : A := fst (fst out).
Definition after {St A} (out : A * St * list Call) : St := snd (fst out).
Definition calls {St A} (out : A * St * list Call) : list Call := snd out.

Definition isCreate (c : Call) : bool :=
  match c with CallCreate _ => true | _ => false end.
Definition isList (c : Call) : bool :=
  match c with CallList _ => true | _ => false end.
Definition isStatusUpdate (c : Call) : bool :=
  match c with CallStatusUpdate _ => true | _ => false end.

Definition nextPass (s : Scheme) (request : NamespacedName) (c : Cluster)
    : Result * option APIError * Cluster * list Call :=
  pass s request (after (pass s request c)).

(** The queues a trace wrote with Status().Update. *)
Definition writtenQueue (c : Call) : list (list string) :=
  match c with
  | CallStatusUpdate w => [Queue (ws_Status w)]
  | _ => []
  end.

Definition writtenQueues (t : list Call) : list (list string) := flat_map writtenQueue t.

(** The same cluster, the workspace holding another queue. *)
Definition withPreviousQueue (key : NamespacedName) (previous : list string) (c : Cluster)
    : Cluster :=
  {| workspaces := alter (fun w => withQueue w previous) key (workspaces c);
     pvcs := pvcs c; commands := commands c; interference := interference c |}.

(** The status a workspace has in a cluster. *)
Definition statusOf (key : NamespacedName) (c : Cluster) : option WorkspaceStatus :=
  ws_Status <$> (workspaces c !! key).

Definition queueOf (key : NamespacedName) (c : Cluster) : list string :=
  match workspaces c !! key with
  | Some w => Queue (ws_Status w)
  | None => []
  end.

(** *** The queue as the specification words it *)

Definition belongsTo (workspace : string) (cmd : Command) : bool :=
  match Labels (cmd_ObjectMeta cmd) !! "workspace" with
  | Some w => String.eqb w workspace
  | None => false
  end.

Definition isCompleted (cmd : Command) : bool :=
  IsTrueFor (cmd_Conditions cmd) ConditionCompleted.

(** Queue members by the specification: labelled for the workspace and not
    completed. *)
Definition spec_queueMembers (workspace : string) (cmds : list Command) : list string :=
  map cmd_Name (List.filter (fun c => belongsTo workspace c && negb (isCompleted c)) cmds).

(** Creation order: timestamp ascending, ties by name ascending. *)
Definition createdBefore (a b : Command) : bool :=
  let ta := CreationTimestamp (cmd_ObjectMeta a) in
  let tb := CreationTimestamp (cmd_ObjectMeta b) in
  (ta <? tb)%Z || ((ta =? tb)%Z && String.leb (cmd_Name a) (cmd_Name b)).

Definition CreatedBefore (a b : Command) : Prop := Is_true (createdBefore a b).

#[global] Instance CreatedBefore_dec (a b : Command) : Decision (CreatedBefore a b) :=
  Is_true_dec (createdBefore a b).

Definition memString (x : string) (l : list string) : bool :=
  existsb (String.eqb x) l.

(** The merge of the specification's queue builder: names of the previous
    queue that are still observed keep their order, the names not yet queued
    follow in creation order. *)
Definition spec_buildQueue (previous : list string) (observed : list Command) : list string :=
  let names := map cmd_Name observed in
  let kept := List.filter (fun n => memString n names) previous in
  let fresh := List.filter (fun c => negb (memString (cmd_Name c) previous)) observed in
  kept ++ map cmd_Name (merge_sort CreatedBefore fresh).

End Reconciler.

(** ** api/etok.dev/v1alpha1, as the client and the controller tests use it

    The type declarations are not part of the sources; the fields are the ones
    workspace_new.go and the controller tests read and write. *)

Module V1alpha1.

Record WorkspaceCacheSpec : Type := {
  StorageClass : option string;
  Size : string
}.

(** v1alpha1.Variable *)
Record WorkspaceVariable : Type := {
  Key : string;
  Value : string;
  EnvironmentVariable : bool
}.

Record BackendSpec : Type := {
  backend_Type : string;
  backend_Config : gmap string string
}.

Record WorkspaceSpec : Type := {
  ServiceAccountName : string;
  SecretName : string;
  Cache : WorkspaceCacheSpec;
  TerraformVersion : string;
  BackupBucket : string;
  PrivilegedCommands : list string;
  Variables : list WorkspaceVariable;
  Verbosity : Z;
  Backend : BackendSpec
}.

Record WorkspaceStatus : Type := {
  Queue : list string;
  Conditions : list Condition
}.

Record Workspace : Type := {
  Name : string;
  Namespace : string;
  Labels : list (string * string);
  Spec : WorkspaceSpec;
  Status : WorkspaceStatus
}.

Definition emptyStatus : WorkspaceStatus := {| Queue := []; Conditions := [] |}.

End V1alpha1.

(** ** The [workspace new] command (cmd/workspace/workspace_new.go) *)

Module WorkspaceNew.
Import V1alpha1.

(** Durations are in seconds. *)
Definition defaultReconcileTimeout : Z := 10.
Definition defaultPodTimeout : Z := 60.
Definition defaultRestoreTimeout : Z := 60.
Definition defaultCacheSize : string := "1Gi".
Definition defaultSecretName : string := "etok".
Definition defaultServiceAccountName : string := "etok".
(** Declared elsewhere in the package, as are the defaults of the path and
    context flags (package flags). *)
Definition defaultNamespace : string := "default".
Definition defaultPath : string := ".".

Inductive error : Type :=
| errPodTimeout
| errReconcileTimeout
| errRestoreTimeout
| errWorkspaceNameArg
| apiError (e : APIError)
| wrapped (context : string) (e : error)
| errorString (message : string).

Inductive Kind : Type :=
| ServiceAccountKind
| SecretKind
| WorkspaceKind.

(** The waiters run joins in its errgroup. *)
Inductive Waiter : Type :=
| ContainerWaiter
| RestoreWaiter
| ReconcileWaiter.

Record Secret : Type := {
  secret_Name : string;
  secret_Labels : list (string * string)
}.

Record ServiceAccount : Type := {
  sa_Name : string;
  sa_Annotations : gmap string string;
  sa_Labels : list (string * string)
}.

(** The command line after cobra has parsed it: [None] is a flag that was
    not passed. *)
Record Flags : Type := {
  flag_path : option string;
  flag_namespace : option string;
  flag_context : option string;
  flag_no_cleanup : option bool;
  flag_no_create_service_account : option bool;
  flag_no_create_secret : option bool;
  flag_service_account : option string;
  flag_secret : option string;
  flag_size : option string;
  flag_terraform_version : option string;
  flag_backup_bucket : option string;
  flag_storage_class : option string;
  flag_reconcile_timeout : option Z;
  flag_pod_timeout : option Z;
  flag_restore_timeout : option Z;
  flag_privileged_commands : option (list string);
  flag_variables : option (gmap string string);
  flag_environment_variables : option (gmap string string);
  flag_sa_annotations : option (gmap string string)
}.

Definition noFlags : Flags := {|
  flag_path := None; flag_namespace := None; flag_context := None;
  flag_no_cleanup := None; flag_no_create_service_account := None;
  flag_no_create_secret := None; flag_service_account := None;
  flag_secret := None; flag_size := None; flag_terraform_version := None;
  flag_backup_bucket := None; flag_storage_class := None;
  flag_reconcile_timeout := None; flag_pod_timeout := None;
  flag_restore_timeout := None;
  flag_privileged_commands := None; flag_variables := None;
  flag_environment_variables := None; flag_sa_annotations := None |}.

(** flags.IsFlagPassed *)
Definition IsFlagPassed {A} (flag : option A) : bool :=
  match flag with Some _ => true | None => false end.

Record newOptions : Type := {
  path : string;
  namespace : string;
  workspace : string;
  kubeContext : string;
  workspaceSpec : WorkspaceSpec;
  disableCreateServiceAccount : bool;
  disableCreateSecret : bool;
  reconcileTimeout : Z;
  podTimeout : Z;
  restoreTimeout : Z;
  disableResourceCleanup : bool;
  createdWorkspace : bool;
  createdServiceAccount : bool;
  createdSecret : bool;
  serviceAccountAnnotations : gmap string string;
  status : option WorkspaceStatus;
  variables : gmap string string;
  environmentVariables : gmap string string
}.

(** The options as newCmd leaves them once the flags are bound: every flag
    variable holds its default or the value passed. The storage class is a
    pointer to the flag's value, the empty string when the flag is absent. *)
Definition newCmd (fl : Flags) : newOptions := {|
  path := default defaultPath (flag_path fl);
  namespace := default defaultNamespace (flag_namespace fl);
  workspace := "";
  kubeContext := default "" (flag_context fl);
  workspaceSpec :=
    {| ServiceAccountName := default defaultServiceAccountName (flag_service_account fl);
       SecretName := default defaultSecretName (flag_secret fl);
       Cache := {| StorageClass := Some (default "" (flag_storage_class fl));
                   Size := default defaultCacheSize (flag_size fl) |};
       TerraformVersion := default "" (flag_terraform_version fl);
       BackupBucket := default "" (flag_backup_bucket fl);
       PrivilegedCommands := default [] (flag_privileged_commands fl);
       Variables := [];
       Verbosity := 0%Z;
       Backend := {| backend_Type := ""; backend_Config := ∅ |} |};
  disableCreateServiceAccount := default false (flag_no_create_service_account fl);
  disableCreateSecret := default false (flag_no_create_secret fl);
  reconcileTimeout := default defaultReconcileTimeout (flag_reconcile_timeout fl);
  podTimeout := default defaultPodTimeout (flag_pod_timeout fl);
  restoreTimeout := default defaultRestoreTimeout (flag_restore_timeout fl);
  disableResourceCleanup := default false (flag_no_cleanup fl);
  createdWorkspace := false;
  createdServiceAccount := false;
  createdSecret := false;
  serviceAccountAnnotations := default ∅ (flag_sa_annotations fl);
  status := None;
  variables := default ∅ (flag_variables fl);
  environmentVariables := default ∅ (flag_environment_variables fl)
|}.

(** Everything the command calls into: the typed clients of the clientset,
    and the collaborators whose code is outside this file (the labels
    package, the environment file, the client factory, the errgroup of
    waiters, the log streamer and the exit monitor). [St] is the state of the
    cluster and of the local disk. *)
Record Collaborators (St : Type) : Type := {
  GetSecret : string -> string -> St -> option APIError;
  GetServiceAccount : string -> string -> St -> option APIError;
  CreateSecret : string -> Secret -> St -> option APIError * St;
  CreateServiceAccount : string -> ServiceAccount -> St -> option APIError * St;
  CreateWorkspace : string -> Workspace -> St -> (APIError + Workspace) * St;
  Delete : Kind -> string -> string -> St -> option APIError * St;
  commonLabels : list (string * string);
  workspaceLabel : string -> string * string;
  componentLabel : string * string;
  Verbosity_ : Z;
  envNew : string -> string -> option error;
  factoryCreate : string -> St -> option error;
  waitAll : list Waiter -> newOptions -> Workspace -> St -> option error * St;
  logStream : newOptions -> Workspace -> St -> option error * St;
  envWrite : string -> string -> string -> St -> option error * St;
  exitCode : Workspace -> St -> option error * St
}.
Arguments GetSecret {St}.
Arguments GetServiceAccount {St}.
Arguments CreateSecret {St}.
Arguments CreateServiceAccount {St}.
Arguments CreateWorkspace {St}.
Arguments Delete {St}.
Arguments commonLabels {St}.
Arguments workspaceLabel {St}.
Arguments componentLabel {St}.
Arguments Verbosity_ {St}.
Arguments envNew {St}.
Arguments factoryCreate {St}.
Arguments waitAll {St}.
Arguments logStream {St}.
Arguments envWrite {St}.
Arguments exitCode {St}.

(** The calls made on the three resource kinds, with their outcome. *)
Inductive Call : Type :=
| CallGet (kind : Kind) (ns name : string) (result : option APIError)
| CallCreateServiceAccount (ns : string) (sa : ServiceAccount) (result : option APIError)
| CallCreateSecret (ns : string) (s : Secret) (result : option APIError)
| CallCreateWorkspace (ns : string) (w : Workspace) (result : option APIError)
| CallDelete (kind : Kind) (ns name : string) (result : option APIError).

(** The command's state: its options, which it mutates, and the world. *)
Definition Action (St A : Type) : Type := newOptions * St -> A * (newOptions * St) * list Call.

Definition ret {St A} (a : A) : Action St A := fun s => (a, s, []).

Definition bind {St A B} (m : Action St A) (k : A -> Action St B) : Action St B :=
  fun s =>
    let '(a, s1, t1) := m s in
    let '(b, s2, t2) := k a s1 in
    (b, s2, t1 ++ t2).

#[local] Notation "'let*' x ':=' m 'in' k" := (bind m (fun x => k))
  (at level 10, x name, m at level 200, k at level 200).

Definition options {St} : Action St newOptions := fun s => (fst s, s, []).

Definition modify {St} (f : newOptions -> newOptions) : Action St unit :=
  fun s => (tt, (f (fst s), snd s), []).

(** A call that reads the world. *)
Definition observe {St A} (f : St -> A) (log : A -> list Call) : Action St A :=
  fun s => let a := f (snd s) in (a, s, log a).

(** A call that may change the world. *)
Definition perform {St A} (f : St -> A * St) (log : A -> list Call) : Action St A :=
  fun s => let '(a, st) := f (snd s) in (a, (fst s, st), log a).

Definition errOf {A} (r : APIError + A) : option APIError :=
  match r with inl e => Some e | inr _ => None end.

Definition setWorkspace (name : string) (o : newOptions) : newOptions := {|
  path := path o; namespace := namespace o; workspace := name;
  kubeContext := kubeContext o; workspaceSpec := workspaceSpec o;
  disableCreateServiceAccount := disableCreateServiceAccount o;
  disableCreateSecret := disableCreateSecret o;
  reconcileTimeout := reconcileTimeout o;
  podTimeout := podTimeout o;
  restoreTimeout := restoreTimeout o;
  disableResourceCleanup := disableResourceCleanup o;
  createdWorkspace := createdWorkspace o;
  createdServiceAccount := createdServiceAccount o;
  createdSecret := createdSecret o;
  serviceAccountAnnotations := serviceAccountAnnotations o;
  status := status o; variables := variables o;
  environmentVariables := environmentVariables o |}.

Definition setStorageClass (sc : option string) (o : newOptions) : newOptions := {|
  path := path o; namespace := namespace o; workspace := workspace o;
  kubeContext := kubeContext o;
  workspaceSpec :=
    let spec := workspaceSpec o in
    {| ServiceAccountName := ServiceAccountName spec;
       SecretName := SecretName spec;
       Cache := {| StorageClass := sc; Size := Size (Cache spec) |};
       TerraformVersion := TerraformVersion spec;
       BackupBucket := BackupBucket spec;
       PrivilegedCommands := PrivilegedCommands spec;
       Variables := Variables spec;
       Verbosity := Verbosity spec;
       Backend := Backend spec |};
  disableCreateServiceAccount := disableCreateServiceAccount o;
  disableCreateSecret := disableCreateSecret o;
  reconcileTimeout := reconcileTimeout o;
  podTimeout := podTimeout o;
  restoreTimeout := restoreTimeout o;
  disableResourceCleanup := disableResourceCleanup o;
  createdWorkspace := createdWorkspace o;
  createdServiceAccount := createdServiceAccount o;
  createdSecret := createdSecret o;
  serviceAccountAnnotations := serviceAccountAnnotations o;
  status := status o; variables := variables o;
  environmentVariables := environmentVariables o |}.

Definition setCreated (k : Kind) (o : newOptions) : newOptions := {|
  path := path o; namespace := namespace o; workspace := workspace o;
  kubeContext := kubeContext o; workspaceSpec := workspaceSpec o;
  disableCreateServiceAccount := disableCreateServiceAccount o;
  disableCreateSecret := disableCreateSecret o;
  reconcileTimeout := reconcileTimeout o;
  podTimeout := podTimeout o;
  restoreTimeout := restoreTimeout o;
  disableResourceCleanup := disableResourceCleanup o;
  createdWorkspace :=
    match k with WorkspaceKind => true | _ => createdWorkspace o end;
  createdServiceAccount :=
    match k with ServiceAccountKind => true | _ => createdServiceAccount o end;
  createdSecret :=
    match k with SecretKind => true | _ => createdSecret o end;
  serviceAccountAnnotations := serviceAccountAnnotations o;
  status := status o; variables := variables o;
  environmentVariables := environmentVariables o |}.

Definition withLabel (l : string * string) (ls : list (string * string))
    : list (string * string) :=
  List.filter (fun kv => negb (String.eqb (fst kv) (fst l))) ls ++ [l].

Definition objectLabels {St} (f : Collaborators St) (workspaceName : string)
    : list (string * string) :=
  withLabel (componentLabel f)
    (withLabel (workspaceLabel f workspaceName) (commonLabels f)).

(** func (o *newOptions) createSecret(ctx, name) *)
Definition createSecret {St} (f : Collaborators St) (name : string)
    : Action St (option APIError) :=
  let* o := options in
  let secret := {| secret_Name := name;
                   secret_Labels := objectLabels f (workspace o) |} in
  perform (CreateSecret f (namespace o) secret)
          (fun r => [CallCreateSecret (namespace o) secret r]).

(** func (o *newOptions) createServiceAccount(ctx, name, annotations) *)
Definition createServiceAccount {St} (f : Collaborators St) (name : string)
    (annotations : gmap string string) : Action St (option APIError) :=
  let* o := options in
  let serviceAccount := {| sa_Name := name; sa_Annotations := annotations;
                           sa_Labels := objectLabels f (workspace o) |} in
  perform (CreateServiceAccount f (namespace o) serviceAccount)
          (fun r => [CallCreateServiceAccount (namespace o) serviceAccount r]).

Definition variablesOf (m : gmap string string) (isEnv : bool) : list WorkspaceVariable :=
  map (fun kv => {| Key := fst kv; Value := snd kv; EnvironmentVariable := isEnv |})
      (map_to_list m).

(** func (o *newOptions) createWorkspace(ctx) *)
Definition createWorkspace {St} (f : Collaborators St)
    : Action St (APIError + Workspace) :=
  let* o := options in
  let spec := workspaceSpec o in
  let ws := {|
    Name := workspace o;
    Namespace := namespace o;
    Labels := objectLabels f (workspace o);
    Spec := {| ServiceAccountName := ServiceAccountName spec;
               SecretName := SecretName spec;
               Cache := Cache spec;
               TerraformVersion := TerraformVersion spec;
               BackupBucket := BackupBucket spec;
               PrivilegedCommands := PrivilegedCommands spec;
               Variables := Variables spec
                            ++ variablesOf (variables o) false
                            ++ variablesOf (environmentVariables o) true;
               Verbosity := Verbosity_ f;
               Backend := Backend spec |};
    Status := default emptyStatus (status o) |} in
  perform (CreateWorkspace f (namespace o) ws)
          (fun r => [CallCreateWorkspace (namespace o) ws (errOf r)]).

(** func (o *newOptions) createSecretIfMissing(ctx) *)
Definition createSecretIfMissing {St} (f : Collaborators St) : Action St (option error) :=
  let* o := options in
  let name := SecretName (workspaceSpec o) in
  let* err := observe (GetSecret f (namespace o) name)
                      (fun r => [CallGet SecretKind (namespace o) name r]) in
  match err with
  | Some err =>
      if IsNotFound err then
        let* cerr := createSecret f name in
        match cerr with
        | Some err => ret (Some (wrapped "attempted to create secret" (apiError err)))
        | None =>
            let* marked := modify (setCreated SecretKind) in
            ret None
        end
      else ret (Some (wrapped "attempted to retrieve secret" (apiError err)))
  | None => ret None
  end.

(** func (o *newOptions) createServiceAccountIfMissing(ctx) *)
Definition createServiceAccountIfMissing {St} (f : Collaborators St)
    : Action St (option error) :=
  let* o := options in
  let name := ServiceAccountName (workspaceSpec o) in
  let* err := observe (GetServiceAccount f (namespace o) name)
                      (fun r => [CallGet ServiceAccountKind (namespace o) name r]) in
  match err with
  | Some err =>
      if IsNotFound err then
        let* cerr := createServiceAccount f name (serviceAccountAnnotations o) in
        match cerr with
        | Some err =>
            ret (Some (wrapped "attempted to create service account" (apiError err)))
        | None =>
            let* marked := modify (setCreated ServiceAccountKind) in
            ret None
        end
      else ret (Some (wrapped "attempted to retrieve service account" (apiError err)))
  | None => ret None
  end.

(** A collaborator that leaves no call on the three resource kinds. *)
Definition collaborate {St A} (f : St -> A * St) : Action St A :=
  perform f (fun _ => []).

(** The waiters of a run: the restore waiter only with a backup bucket. *)
Definition waitersFor (o : newOptions) : list Waiter :=
  [ContainerWaiter]
  ++ (if negb (String.eqb (BackupBucket (workspaceSpec o)) "") then [RestoreWaiter] else [])
  ++ [ReconcileWaiter].

(** The readiness protocol of run, after the workspace is created: the
    errgroup join of the waiters (one collaborator: the join returns the
    error of whichever waiter fails first), then the log stream, the
    environment file and the exit code, each ending the run with its error. *)
Definition attach {St} (f : Collaborators St) (ws : Workspace) : Action St (option error) :=
  let* o := options in
  let* joined := collaborate (waitAll f (waitersFor o) o ws) in
  match joined with
  | Some err => ret (Some err)
  | None =>
      let* streamed := collaborate (logStream f o ws) in
      match streamed with
      | Some err => ret (Some err)
      | None =>
          let* written := collaborate (envWrite f (namespace o) (workspace o) (path o)) in
          match written with
          | Some err => ret (Some err)
          | None => collaborate (exitCode f ws)
          end
      end
  end.

(** func (o *newOptions) run(ctx) error *)
Definition run {St} (f : Collaborators St) : Action St (option error) :=
  let* o := options in
  let* saErr := (if negb (disableCreateServiceAccount o)
                 then createServiceAccountIfMissing f else ret None) in
  match saErr with
  | Some err => ret (Some err)
  | None =>
      let* secretErr := (if negb (disableCreateSecret o)
                         then createSecretIfMissing f else ret None) in
      match secretErr with
      | Some err => ret (Some err)
      | None =>
          let* created := createWorkspace f in
          match created with
          | inl err => ret (Some (apiError err))
          | inr ws =>
              let* marked := modify (setCreated WorkspaceKind) in
              attach f ws
          end
      end
  end.

Definition deleteResource {St} (f : Collaborators St) (k : Kind) (ns name : string)
    : Action St unit :=
  let* ignored := perform (Delete f k ns name) (fun r => [CallDelete k ns name r]) in
  ret tt.

(** func (o *newOptions) cleanup() *)
Definition cleanup {St} (f : Collaborators St) : Action St unit :=
  let* o := options in
  let* ws := (if createdWorkspace o
              then deleteResource f WorkspaceKind (namespace o) (workspace o)
              else ret tt) in
  let* secret := (if createdSecret o
                  then deleteResource f SecretKind (namespace o)
                         (SecretName (workspaceSpec o))
                  else ret tt) in
  if createdServiceAccount o
  then deleteResource f ServiceAccountKind (namespace o)
         (ServiceAccountName (workspaceSpec o))
  else ret tt.

(** The RunE closure of newCmd, on the options the flags were bound to. *)
Definition RunE {St} (f : Collaborators St) (fl : Flags) (args : list string)
    : Action St (option error) :=
  match args with
  | [name] =>
      let* named := modify (setWorkspace name) in
      let* o := options in
      match envNew f (namespace o) (workspace o) with
      | Some err => ret (Some err)
      | None =>
          let* nilled := (if negb (IsFlagPassed (flag_storage_class fl))
                          then modify (setStorageClass None) else ret tt) in
          let* clientErr := observe (factoryCreate f (kubeContext o)) (fun _ => []) in
          match clientErr with
          | Some err => ret (Some err)
          | None =>
              let* err := run f in
              let* cleaned := (match err with
                               | Some _ =>
                                   if negb (disableResourceCleanup o)
                                   then cleanup f else ret tt
                               | None => ret tt
                               end) in
              ret err
          end
      end
  | _ => ret (Some errWorkspaceNameArg)
  end.

(** One invocation of the command: newCmd binds the flags, cobra runs RunE. *)
Definition Execute {St} (f : Collaborators St) (fl : Flags) (args : list string) (st : St)
    : option error * (newOptions * St) * list Call :=
  RunE f fl args (newCmd fl, st).

Definition returned {St A} (out : A * (newOptions * St) * list Call) : A := fst (fst out).
Definition finalOptions {St A} (out : A * (newOptions * St) * list Call) : newOptions :=
  fst (snd (fst out)).
Definition calls {St A} (out : A * (newOptions * St) * list Call) : list Call := snd out.

(** The resources a trace created (successful creates, oldest first) and
    the ones it asked to delete, as kind, namespace and name. *)
Definition Resource : Type := Kind * string * string.

Definition createdBy (c : Call) : list Resource :=
  match c with
  | CallCreateServiceAccount ns sa None => [(ServiceAccountKind, ns, sa_Name sa)]
  | CallCreateSecret ns s None => [(SecretKind, ns, secret_Name s)]
  | CallCreateWorkspace ns w None => [(WorkspaceKind, ns, Name w)]
  | _ => []
  end.

Definition deletedBy (c : Call) : list Resource :=
  match c with
  | CallDelete k ns name _ => [(k, ns, name)]
  | _ => []
  end.

Definition created (t : list Call) : list Resource := flat_map createdBy t.
Definition deleted (t : list Call) : list Resource := flat_map deletedBy t.

(** The resources the created flags of the options stand for, in the order
    run creates them. *)
Definition flagged (o : newOptions) : list Resource :=
  (if createdServiceAccount o
   then [(ServiceAccountKind, namespace o, ServiceAccountName (workspaceSpec o))] else [])
  ++ (if createdSecret o
      then [(SecretKind, namespace o, SecretName (workspaceSpec o))] else [])
  ++ (if createdWorkspace o
      then [(WorkspaceKind, namespace o, workspace o)] else []).

Definition unflagged (o : newOptions) : Prop :=
  createdWorkspace o = false /\ createdServiceAccount o = false /\ createdSecret o = false.

Definition kindOf (r : Resource) : Kind := fst (fst r).

Definition foundExisting (c : Call) : list Resource :=
  match c with
  | CallGet k ns name None => [(k, ns, name)]
  | _ => []
  end.


End WorkspaceNew.

(** *** A world to run the command in *)

Module FakeWorld.
Import V1alpha1 WorkspaceNew.

#[global] Instance Kind_eq_dec : EqDecision Kind.
Proof. solve_decision. Defined.

(** The objects of the three kinds that exist, and what the readiness
    protocol will answer. *)
Record World : Type := {
  objects : list Resource;
  readiness : option error
}.

Definition exists_ (r : Resource) (w : World) : bool := bool_decide (r ∈ objects w).

Definition get (k : Kind) (ns name : string) (w : World) : option APIError :=
  if exists_ (k, ns, name) w then None else Some NotFound.

Definition create (r : Resource) (w : World) : option APIError * World :=
  if exists_ r w then (Some AlreadyExists, w)
  else (None, {| objects := objects w ++ [r]; readiness := readiness w |}).

Definition delete (k : Kind) (ns name : string) (w : World) : option APIError * World :=
  if exists_ (k, ns, name) w
  then (None, {| objects := List.filter (fun r => negb (bool_decide (r = (k, ns, name))))
                                        (objects w);
                 readiness := readiness w |})
  else (Some NotFound, w).

Definition collaborators : Collaborators World := {|
  GetSecret := get SecretKind;
  GetServiceAccount := get ServiceAccountKind;
  CreateSecret := fun ns s => create (SecretKind, ns, secret_Name s);
  CreateServiceAccount := fun ns sa => create (ServiceAccountKind, ns, sa_Name sa);
  CreateWorkspace := fun ns ws w =>
    match create (WorkspaceKind, ns, Name ws) w with
    | (Some e, w') => (inl e, w')
    | (None, w') => (inr ws, w')
    end;
  Delete := delete;
  commonLabels := [("app", "etok")];
  workspaceLabel := fun name => ("workspace", name);
  componentLabel := ("component", "workspace");
  Verbosity_ := 0%Z;
  envNew := fun _ _ => None;
  factoryCreate := fun _ _ => None;
  waitAll := fun _ _ _ w => (readiness w, w);
  logStream := fun _ _ w => (None, w);
  envWrite := fun _ _ _ w => (None, w);
  exitCode := fun _ w => (None, w)
|}.

(** The secret exists already, the service account does not, and the pod
    never becomes ready. *)
Definition secretOnly : World := {|
  objects := [(SecretKind, "default", "etok")];
  readiness := Some errPodTimeout
|}.

(** Nothing exists yet and the operator never reconciles the workspace. *)
Definition emptyNoOperator : World := {|
  objects := [];
  readiness := Some errReconcileTimeout
|}.

(** The workspace that [workspace new foo] sends when no flag is passed. *)
Definition fooWorkspace : Workspace := {|
  Name := "foo";
  Namespace := "default";
  Labels := [("app", "etok"); ("workspace", "foo"); ("component", "workspace")];
  Spec := {| ServiceAccountName := "etok";
             SecretName := "etok";
             Cache := {| StorageClass := None; Size := "1Gi" |};
             TerraformVersion := "";
             BackupBucket := "";
             PrivilegedCommands := [];
             Variables := [];
             Verbosity := 0%Z;
             Backend := {| backend_Type := ""; backend_Config := ∅ |} |};
  Status := emptyStatus
|}.

End FakeWorld.

(** ** The backend config map of the later controller *)

Module Backend.
Import V1alpha1.

Definition quote : string := String (ascii_of_nat 34) EmptyString.
Definition tab : string := String (ascii_of_nat 9) EmptyString.
Definition newline : string := String (ascii_of_nat 10) EmptyString.

(** Settings are ordered by key, bytewise. *)
Definition KeyLe (a b : string * string) : Prop := Is_true (String.leb (fst a) (fst b)).

#[global] Instance KeyLe_dec (a b : string * string) : Decision (KeyLe a b) :=
  Is_true_dec (String.leb (fst a) (fst b)).

Definition sortedSettings (config : gmap string string) : list (string * string) :=
  merge_sort KeyLe (map_to_list config).

(** One setting: the key, a tab, the equals sign and the quoted value. *)
Definition iniLine (kv : string * string) : string :=
  fst kv +:+ tab +:+ "= " +:+ quote +:+ snd kv +:+ quote +:+ newline.

Definition concatStrings (ls : list string) : string :=
  fold_right String.append EmptyString ls.

(** Modelled from the spec: the rendering of the backend config map, whose
    code (the config map synthesizer of the later controller) is not part of
    the sources; the controller test TestReconcileWorkspaceConfigMap fixes the
    exact text. *)
Definition backendIni (b : BackendSpec) : string :=
  concatStrings (map iniLine (sortedSettings (backend_Config b))).

Definition backendTf (b : BackendSpec) : string :=
  "terraform {" +:+ newline +:+
  "  backend " +:+ quote +:+ backend_Type b +:+ quote +:+ " {}" +:+ newline +:+
  "}" +:+ newline.

Definition configMapData (b : BackendSpec) : gmap string string :=
  <[ "backend.tf" := backendTf b ]> (<[ "backend.ini" := backendIni b ]> ∅).

Definition gcsBackend : BackendSpec := {|
  backend_Type := "gcs";
  backend_Config := <[ "prefix" := "dev" ]> (<[ "bucket" := "workspace-1-state" ]> ∅)
|}.

Definition localBackend : BackendSpec := {|
  backend_Type := "local";
  backend_Config := ∅
|}.

End Backend.

(** ** The health condition of the later controller *)

Module Health.
Import V1alpha1.

(** The secrets and service accounts that exist, by namespace and name. *)
Record Cluster : Type := {
  secrets : gset NamespacedName;
  serviceAccounts : gset NamespacedName
}.

(** A reference is a non-empty name. *)
Definition referenced (name : string) : bool := negb (String.eqb name "").

Definition missing (ns name : string) (store : gset NamespacedName) : bool :=
  referenced name && negb (bool_decide ((ns, name) ∈ store)).

(** Modelled from the spec: step 2 of the reconciliation engine, whose code
    (the later controller) is not part of the sources: Healthy is false if a
    named secret or service account is referenced but does not exist, true
    otherwise. *)
Definition healthStatus (ws : Workspace) (c : Cluster) : ConditionStatus :=
  if missing (Namespace ws) (SecretName (Spec ws)) (secrets c)
     || missing (Namespace ws) (ServiceAccountName (Spec ws)) (serviceAccounts c)
  then ConditionFalse
  else ConditionTrue.

Definition reconcileHealth (now : Z) (ws : Workspace) (c : Cluster) : Workspace := {|
  Name := Name ws;
  Namespace := Namespace ws;
  Labels := Labels ws;
  Spec := Spec ws;
  Status :=
    {| Queue := Queue (Status ws);
       Conditions :=
         SetCondition (Conditions (Status ws))
           {| cond_Type := ConditionHealthy;
              cond_Status := healthStatus ws c;
              cond_LastTransitionTime := now |} |}
|}.

Definition healthy (ws : Workspace) : option ConditionStatus :=
  cond_Status <$> GetCondition (Conditions (Status ws)) ConditionHealthy.

Definition workspaceReferencing (secret serviceAccount : string) : Workspace := {|
  Name := "workspace-1";
  Namespace := "";
  Labels := [];
  Spec := {| ServiceAccountName := serviceAccount;
             SecretName := secret;
             Cache := {| StorageClass := None; Size := "" |};
             TerraformVersion := "";
             BackupBucket := "";
             PrivilegedCommands := [];
             Variables := [];
             Verbosity := 0%Z;
             Backend := {| backend_Type := ""; backend_Config := ∅ |} |};
  Status := emptyStatus
|}.

Definition emptyCluster : Cluster := {| secrets := ∅; serviceAccounts := ∅ |}.

End Health.

(** ** Clusters of the controller tests *)

Module Fixtures.
Import Reconciler.

Definition meta (name ns : string) (labels : gmap string string) (created : Z)
    : ObjectMeta :=
  {| Name := name; Namespace := ns; Labels := labels;
     OwnerReferences := []; CreationTimestamp := created |}.

Definition command (name workspace : string) (created : Z) (conditions : list Condition)
    : Command :=
  {| cmd_ObjectMeta := meta name "default" {[ "workspace" := workspace ]} created;
     cmd_Spec := {| cmd_Workspace := workspace |};
     cmd_Conditions := conditions |}.

Definition plan1 : Command := command "plan-1" "workspace-1" 1 [].
Definition plan2 : Command := command "plan-2" "workspace-1" 2 [].
(** Labelled for another workspace. *)
Definition plan3 : Command := command "plan-3" "workspace-2" 3 [].
Definition planCompleted : Command :=
  command "plan-0" "workspace-1" 0
    [{| cond_Type := ConditionCompleted; cond_Status := ConditionTrue;
        cond_LastTransitionTime := 5 |}].
(** Created before plan-1, listed after it. *)
Definition planEarly : Command := command "plan-9" "workspace-1" 0 [].

Definition workspaceWithQueue (queue : list string) : Workspace :=
  {| ws_ObjectMeta := meta "workspace-1" "default" ∅ 0;
     ws_Spec := {| SecretName := ""; Cache := {| StorageClass := ""; Size := "" |} |};
     ws_Status := {| Queue := queue |} |}.

Definition workspace1 : Workspace := workspaceWithQueue [].

Definition request1 : NamespacedName := ("default", "workspace-1").

Definition claim1 : PersistentVolumeClaim :=
  match SetControllerReference workspace1 (newPVCForCR workspace1) registeredScheme with
  | inr pvc => pvc
  | inl _ => newPVCForCR workspace1
  end.

(** A workspace whose claim exists, with the given queue and commands. *)
Definition settled (queue : list string) (cmds : list Command) : Cluster :=
  {| workspaces := {[ request1 := workspaceWithQueue queue ]};
     pvcs := {[ pvc_Key claim1 := claim1 ]};
     commands := cmds;
     interference := [] |}.

(** A workspace that was just created: no claim yet. *)
Definition fresh (cmds : list Command) : Cluster :=
  {| workspaces := {[ request1 := workspace1 ]};
     pvcs := ∅;
     commands := cmds;
     interference := [] |}.

(** Another actor creates the claim after the reconciler looked for it. *)
Definition raced : Cluster :=
  {| workspaces := {[ request1 := workspace1 ]};
     pvcs := ∅;
     commands := [];
     interference := [claim1] |}.

End Fixtures.


(** ** Setting the controller up (package workspace: Add, newReconciler, add) *)

Module ControllerSetup.
Import Reconciler.

(** source.Kind: the kinds the controller watches. *)
Inductive WatchedKind : Type :=
| WatchWorkspace
| WatchPersistentVolumeClaim
| WatchCommand.

(** handler.EventHandler *)
Inductive EventHandler : Type :=
| EnqueueRequestForObject
| EnqueueRequestForOwner (IsController : bool) (OwnerType : WatchedKind)
| EnqueueRequestsFromMapFunc (ToRequests : Command -> list NamespacedName).

Record Watch : Type := {
  watch_Source : WatchedKind;
  watch_Handler : EventHandler
}.

(** manager.Manager, with the answers of controller.New and of Watch, which
    depend on the cluster the manager is connected to. *)
Record Manager (St : Type) : Type := {
  GetClient : Client St;
  GetScheme : Scheme;
  controllerNew : string -> option APIError;
  watch : WatchedKind -> option APIError
}.
Arguments GetClient {St}.
Arguments GetScheme {St}.
Arguments controllerNew {St}.
Arguments watch {St}.

(** func newReconciler(mgr) reconcile.Reconciler *)
Definition newReconciler {St} (mgr : Manager St) : ReconcileWorkspace St :=
  {| client := GetClient mgr; scheme := GetScheme mgr |}.

(** The ToRequests function of the Command watch (lines 66-76). *)
Definition commandToRequests (command : Command) : list NamespacedName :=
  [(cmd_Namespace command, cmd_Workspace (cmd_Spec command))].

Definition workspaceWatch : Watch :=
  {| watch_Source := WatchWorkspace; watch_Handler := EnqueueRequestForObject |}.
Definition claimWatch : Watch :=
  {| watch_Source := WatchPersistentVolumeClaim;
     watch_Handler := EnqueueRequestForOwner true WatchWorkspace |}.
Definition commandWatch : Watch :=
  {| watch_Source := WatchCommand;
     watch_Handler := EnqueueRequestsFromMapFunc commandToRequests |}.

(** func add(mgr, r) error, with the watches it got registered. *)
Definition add {St} (mgr : Manager St) (r : ReconcileWorkspace St)
    : option APIError * list Watch :=
  match controllerNew mgr "workspace-controller" with
  | Some err => (Some err, [])
  | None =>
      match watch mgr WatchWorkspace with
      | Some err => (Some err, [])
      | None =>
          match watch mgr WatchPersistentVolumeClaim with
          | Some err => (Some err, [workspaceWatch])
          | None =>
              match watch mgr WatchCommand with
              | Some err => (Some err, [workspaceWatch; claimWatch])
              | None => (None, [workspaceWatch; claimWatch; commandWatch])
              end
          end
      end
  end.

(** func Add(mgr) error *)
Definition Add {St} (mgr : Manager St) : option APIError * list Watch :=
  add mgr (newReconciler mgr).

(** The calls of a pass that write to the cluster. *)
Definition isWrite (c : Call) : bool :=
  match c with
  | CallCreate _ | CallStatusUpdate _ => true
  | _ => false
  end.

(** A manager whose cluster refuses to watch commands. *)
Definition managerWithoutCommands : Manager Cluster :=
  {| GetClient := fakeClient; GetScheme := registeredScheme;
     controllerNew := fun _ => None;
     watch := fun k => match k with
                       | WatchCommand => Some (OtherError "no matches for kind Command")
                       | _ => None
                       end |}.

(** A workspace with a cache spec of its own. *)
Definition workspaceWithCache (storageClass size : string) : Workspace :=
  {| ws_ObjectMeta := Fixtures.meta "workspace-1" "default" ∅ 0;
     ws_Spec := {| SecretName := "";
                   Cache := {| StorageClass := storageClass; Size := size |} |};
     ws_Status := {| Queue := [] |} |}.

(** A client whose reads fail and whose Status().Update is refused. *)
Definition failingWith (e : APIError) : Client Cluster :=
  {| GetWorkspace := fun _ _ => inl e;
     GetPVC := fun _ _ => inl e;
     Create := fun _ c => (Some e, c);
     List := fun _ _ => inl e;
     StatusUpdate := fun _ c => (Some e, c) |}.

(** The fake client with one of its calls failing. *)
Definition withGetPVC (f : NamespacedName -> Cluster -> APIError + PersistentVolumeClaim)
    : Client Cluster :=
  {| GetWorkspace := fakeGetWorkspace; GetPVC := f; Create := fakeCreate;
     List := fakeList; StatusUpdate := fakeStatusUpdate |}.

Definition withList (f : string -> Cluster -> APIError + list Command) : Client Cluster :=
  {| GetWorkspace := fakeGetWorkspace; GetPVC := fakeGetPVC; Create := fakeCreate;
     List := f; StatusUpdate := fakeStatusUpdate |}.

Definition withStatusUpdate (f : Workspace -> Cluster -> option APIError * Cluster)
    : Client Cluster :=
  {| GetWorkspace := fakeGetWorkspace; GetPVC := fakeGetPVC; Create := fakeCreate;
     List := fakeList; StatusUpdate := f |}.

Definition reconcilerOver (c : Client Cluster) : ReconcileWorkspace Cluster :=
  {| client := c; scheme := registeredScheme |}.

(** What a pass may change: no command, no stored claim, no workspace's
    presence, metadata or spec. *)
Definition keeps (c c' : Cluster) : Prop :=
  commands c' = commands c
  /\ (forall k p, pvcs c !! k = Some p -> pvcs c' !! k = Some p)
  /\ (forall k,
        match workspaces c !! k with
        | Some w0 =>
            exists w1, workspaces c' !! k = Some w1
                       /\ ws_ObjectMeta w1 = ws_ObjectMeta w0
                       /\ ws_Spec w1 = ws_Spec w0
        | None => workspaces c' !! k = None
        end).

End ControllerSetup.

(** ** What an invocation of [workspace new] touches *)

Module CommandTrace.
Import V1alpha1 WorkspaceNew.

(** The options RunE hands to run for the workspace [name]: the flags as
    newCmd bound them, the name, and no storage class unless the flag was
    passed. *)
Definition runOptions (fl : Flags) (name : string) : newOptions :=
  if negb (IsFlagPassed (flag_storage_class fl))
  then setStorageClass None (setWorkspace name (newCmd fl))
  else setWorkspace name (newCmd fl).

(** The kind a call is about. *)
Definition kindOfCall (c : Call) : Kind :=
  match c with
  | CallGet k _ _ _ => k
  | CallCreateServiceAccount _ _ _ => ServiceAccountKind
  | CallCreateSecret _ _ _ => SecretKind
  | CallCreateWorkspace _ _ _ => WorkspaceKind
  | CallDelete k _ _ _ => k
  end.

Definition Kind_eqb (a b : Kind) : bool :=
  match a, b with
  | ServiceAccountKind, ServiceAccountKind
  | SecretKind, SecretKind
  | WorkspaceKind, WorkspaceKind => true
  | _, _ => false
  end.

Definition concerns (k : Kind) (c : Call) : bool := Kind_eqb k (kindOfCall c).

(** The flag that keeps the command from creating a kind. *)
Definition creationDisabled (fl : Flags) (k : Kind) : bool :=
  match k with
  | ServiceAccountKind => default false (flag_no_create_service_account fl)
  | SecretKind => default false (flag_no_create_secret fl)
  | WorkspaceKind => false
  end.

Definition isCreateCall (c : Call) : bool :=
  match c with
  | CallCreateServiceAccount _ _ _ | CallCreateSecret _ _ _ | CallCreateWorkspace _ _ _ => true
  | _ => false
  end.

Definition isDeleteCall (c : Call) : bool :=
  match c with CallDelete _ _ _ _ => true | _ => false end.

(** The read that precedes a create of a secret or a service account. *)
Definition readBefore (c : Call) : option (Kind * string * string) :=
  match c with
  | CallCreateServiceAccount ns sa _ => Some (ServiceAccountKind, ns, sa_Name sa)
  | CallCreateSecret ns s _ => Some (SecretKind, ns, secret_Name s)
  | _ => None
  end.


(** Nothing exists yet and the workspace becomes ready. *)
Definition emptyReady : FakeWorld.World :=
  {| FakeWorld.objects := []; FakeWorld.readiness := None |}.

Definition flagsNoSecret : Flags := {|
  flag_path := None; flag_namespace := None; flag_context := None;
  flag_no_cleanup := None; flag_no_create_service_account := None;
  flag_no_create_secret := Some true; flag_service_account := None;
  flag_secret := None; flag_size := None; flag_terraform_version := None;
  flag_backup_bucket := None; flag_storage_class := None;
  flag_reconcile_timeout := None; flag_pod_timeout := None;
  flag_restore_timeout := None;
  flag_privileged_commands := None;
  flag_variables := Some {[ "region" := "eu" ]};
  flag_environment_variables := Some {[ "TF_LOG" := "debug" ]};
  flag_sa_annotations := None |}.

(** A world where the environment of a workspace cannot be set up. *)
Definition withoutEnvironment : Collaborators FakeWorld.World :=
  {| GetSecret := GetSecret FakeWorld.collaborators;
     GetServiceAccount := GetServiceAccount FakeWorld.collaborators;
     CreateSecret := CreateSecret FakeWorld.collaborators;
     CreateServiceAccount := CreateServiceAccount FakeWorld.collaborators;
     CreateWorkspace := CreateWorkspace FakeWorld.collaborators;
     Delete := Delete FakeWorld.collaborators;
     commonLabels := commonLabels FakeWorld.collaborators;
     workspaceLabel := workspaceLabel FakeWorld.collaborators;
     componentLabel := componentLabel FakeWorld.collaborators;
     Verbosity_ := Verbosity_ FakeWorld.collaborators;
     envNew := fun _ _ => Some (errorString "invalid workspace name");
     factoryCreate := factoryCreate FakeWorld.collaborators;
     waitAll := waitAll FakeWorld.collaborators;
     logStream := logStream FakeWorld.collaborators;
     envWrite := envWrite FakeWorld.collaborators;
     exitCode := exitCode FakeWorld.collaborators |}.

(** The service account that [workspace new foo] creates. *)
Definition etokServiceAccount : ServiceAccount :=
  {| sa_Name := "etok"; sa_Annotations := ∅;
     sa_Labels := [("app", "etok"); ("workspace", "foo"); ("component", "workspace")] |}.

(** The workspace that [workspace new foo] sends with [flagsNoSecret]. *)
Definition fooWithVariables : Workspace := {|
  Name := "foo";
  Namespace := "default";
  Labels := [("app", "etok"); ("workspace", "foo"); ("component", "workspace")];
  Spec := {| ServiceAccountName := "etok";
             SecretName := "etok";
             Cache := {| StorageClass := None; Size := "1Gi" |};
             TerraformVersion := "";
             BackupBucket := "";
             PrivilegedCommands := [];
             Variables := [{| Key := "region"; Value := "eu"; EnvironmentVariable := false |};
                           {| Key := "TF_LOG"; Value := "debug"; EnvironmentVariable := true |}];
             Verbosity := 0%Z;
             Backend := {| backend_Type := ""; backend_Config := ∅ |} |};
  Status := emptyStatus
|}.

End CommandTrace.

(** ** The fake client creator (pkg/client/fake_clientcreator.go) *)

Module FakeClientCreator.

(** The dynamic type of a runtime.Object. *)
Inductive ObjectType : Type :=
| RunType
| WorkspaceType
| OtherType (kind : string).

Record Object : Type := {
  obj_Type : ObjectType;
  obj_Namespace : string;
  obj_Name : string
}.

Section Reactions.
(** testing.ReactionFunc and testing.WatchReactionFunc *)
Context {Reaction WatchReaction : Type}.

Record SimpleReactor : Type := {
  Verb : string;
  Resource : string;
  Reaction_ : Reaction
}.

Record SimpleWatchReactor : Type := {
  watch_Resource : string;
  watch_Reaction : WatchReaction
}.

(** A reactor of a clientset: one a test registered, or the object tracker
    every simple clientset starts with. *)
Inductive Reactor : Type :=
| Simple (r : SimpleReactor)
| ObjectTracker.

Inductive WatchReactor : Type :=
| SimpleWatch (r : SimpleWatchReactor)
| TrackerWatch.

(** A fake clientset (client-go testing.Fake): the objects of its tracker
    and its reaction chains, consulted from the head. *)
Record Clientset : Type := {
  tracker : list Object;
  ReactionChain : list Reactor;
  WatchReactionChain : list WatchReactor
}.

Definition NewSimpleClientset (objects : list Object) : Clientset :=
  {| tracker := objects; ReactionChain := [ObjectTracker];
     WatchReactionChain := [TrackerWatch] |}.

Definition PrependReactor (r : SimpleReactor) (c : Clientset) : Clientset :=
  {| tracker := tracker c; ReactionChain := Simple r :: ReactionChain c;
     WatchReactionChain := WatchReactionChain c |}.

Definition PrependWatchReactor (r : SimpleWatchReactor) (c : Clientset) : Clientset :=
  {| tracker := tracker c; ReactionChain := ReactionChain c;
     WatchReactionChain := SimpleWatch r :: WatchReactionChain c |}.

Record FakeClientCreator : Type := {
  objs : list Object;
  kubeReactors : list SimpleReactor;
  stokReactors : list SimpleReactor;
  kubeWatchReactors : list SimpleWatchReactor;
  stokWatchReactors : list SimpleWatchReactor
}.

(** rest.Config, of which the fake client holds an empty one. *)
Record RestConfig : Type := { Host : string }.

Record Client : Type := {
  Config : RestConfig;
  KubeClient : Clientset;
  StokClient : Clientset
}.

(** func NewFakeClientCreator(objs ...runtime.Object) ClientCreator *)
Definition NewFakeClientCreator (objects : list Object) : FakeClientCreator :=
  {| objs := objects; kubeReactors := []; stokReactors := [];
     kubeWatchReactors := []; stokWatchReactors := [] |}.

(** The loop of lines 26-33: the objects of the stok API go to one list, all
    others to the other. *)
Definition splitObjects (objects : list Object) : list Object * list Object :=
  fold_left (fun lists obj =>
               match obj_Type obj with
               | RunType | WorkspaceType => (fst lists, snd lists ++ [obj])
               | OtherType _ => (fst lists ++ [obj], snd lists)
               end)
            objects ([], []).

(** func (f *FakeClientCreator) Create(kubeCtx string): the client and the
    error, which is always nil. *)
Definition Create (f : FakeClientCreator) (kubeCtx : string) : Client * option APIError :=
  let '(kubeObjs, stokObjs) := splitObjects (objs f) in
  let kubeClient := NewSimpleClientset kubeObjs in
  let stokClient := NewSimpleClientset stokObjs in
  let kubeClient := fold_left (fun c r => PrependReactor r c) (kubeReactors f) kubeClient in
  let kubeClient :=
    fold_left (fun c r => PrependWatchReactor r c) (kubeWatchReactors f) kubeClient in
  let stokClient := fold_left (fun c r => PrependReactor r c) (stokReactors f) stokClient in
  let stokClient :=
    fold_left (fun c r => PrependWatchReactor r c) (stokWatchReactors f) stokClient in
  ({| Config := {| Host := "" |}; KubeClient := kubeClient; StokClient := stokClient |},
   None).

(** func (f *FakeClientCreator) PrependKubeReactor(verb, resource, reaction) *)
Definition PrependKubeReactor (f : FakeClientCreator) (verb resource : string)
    (reaction : Reaction) : FakeClientCreator :=
  {| objs := objs f;
     kubeReactors := kubeReactors f
                     ++ [{| Verb := verb; Resource := resource; Reaction_ := reaction |}];
     stokReactors := stokReactors f;
     kubeWatchReactors := kubeWatchReactors f;
     stokWatchReactors := stokWatchReactors f |}.

(** func (f *FakeClientCreator) PrependKubeWatchReactor(resource, reaction) *)
Definition PrependKubeWatchReactor (f : FakeClientCreator) (resource : string)
    (reaction : WatchReaction) : FakeClientCreator :=
  {| objs := objs f;
     kubeReactors := kubeReactors f;
     stokReactors := stokReactors f;
     kubeWatchReactors := kubeWatchReactors f
                          ++ [{| watch_Resource := resource; watch_Reaction := reaction |}];
     stokWatchReactors := stokWatchReactors f |}.

(** func (f *FakeClientCreator) PrependStokReactor(verb, resource, reaction) *)
Definition PrependStokReactor (f : FakeClientCreator) (verb resource : string)
    (reaction : Reaction) : FakeClientCreator :=
  {| objs := objs f;
     kubeReactors := kubeReactors f;
     stokReactors := stokReactors f
                     ++ [{| Verb := verb; Resource := resource; Reaction_ := reaction |}];
     kubeWatchReactors := kubeWatchReactors f;
     stokWatchReactors := stokWatchReactors f |}.

(** func (f *FakeClientCreator) PrependStokWatchReactor(verb, resource, reaction):
    the verb is not kept. *)
Definition PrependStokWatchReactor (f : FakeClientCreator) (verb resource : string)
    (reaction : WatchReaction) : FakeClientCreator :=
  {| objs := objs f;
     kubeReactors := kubeReactors f;
     stokReactors := stokReactors f;
     kubeWatchReactors := kubeWatchReactors f;
     stokWatchReactors := stokWatchReactors f
                          ++ [{| watch_Resource := resource; watch_Reaction := reaction |}] |}.

Definition isStokObject (obj : Object) : bool :=
  match obj_Type obj with
  | RunType | WorkspaceType => true
  | OtherType _ => false
  end.

End Reactions.

Arguments SimpleReactor : clear implicits.
Arguments SimpleWatchReactor : clear implicits.
Arguments Reactor : clear implicits.
Arguments WatchReactor : clear implicits.
Arguments Clientset : clear implicits.
Arguments FakeClientCreator : clear implicits.
Arguments Client : clear implicits.

End FakeClientCreator.

(** * Properties of the workspace controller *)

Section ReconcilePasses.
Import Reconciler.

Lemma appendNames_from (items : list Command) (queue : list string) :
  fold_left (fun queue item => queue ++ [cmd_Name item]) items queue
  = queue ++ map cmd_Name items.
Proof.
  revert queue. induction items as [|item items IH]; intros queue; simpl.
  - now rewrite app_nil_r.
  - rewrite IH, <- app_assoc. reflexivity.
Qed.

Lemma appendNames_map (items : list Command) :
  appendNames items = map cmd_Name items.
Proof. unfold appendNames. apply appendNames_from. Qed.

Lemma SetControllerReference_keeps_key (owner : Workspace)
    (object pvc : PersistentVolumeClaim) (s : Scheme) :
  SetControllerReference owner object s = inr pvc ->
  pvc_Key pvc = pvc_Key object.
Proof.
  unfold SetControllerReference.
  destruct (kindRegistered s "Workspace"); [|discriminate].
  destruct (existsb _ _); [discriminate|].
  intros H. injection H as <-. reflexivity.
Qed.

Lemma newPVCForCR_key (cr : Workspace) :
  pvc_Key (newPVCForCR cr) = (ws_Namespace cr, ws_Name cr +:+ "-pvc").
Proof. reflexivity. Qed.

Context {St : Type} (r : ReconcileWorkspace St) (request : NamespacedName) (st : St).

Ltac step_reconcile :=
  unfold Reconcile, bind, doGetWorkspace, doGetPVC, doCreate, doList, doStatusUpdate, ret.

(** The workspace is gone: nothing to do, no error. *)
Lemma Reconcile_workspace_not_found :
  GetWorkspace (client r) request st = inl NotFound ->
  Reconcile r request st = ((emptyResult, None), st, [CallGetWorkspace request]).
Proof. intros Hget. step_reconcile. rewrite Hget. reflexivity. Qed.

(** The claim exists: the commands are listed and, when there are any, the
    queue is rewritten from the list. *)
Lemma Reconcile_claim_found (instance : Workspace)
    (pvc found : PersistentVolumeClaim) (items : list Command) :
  GetWorkspace (client r) request st = inr instance ->
  SetControllerReference instance (newPVCForCR instance) (scheme r) = inr pvc ->
  GetPVC (client r) (pvc_Key pvc) st = inr found ->
  List (client r) (fst request) st = inr items ->
  Reconcile r request st =
    ((emptyResult, None),
     (if (0 <? length items)%nat
      then snd (StatusUpdate (client r) (withQueue instance (map cmd_Name items)) st)
      else st),
     [CallGetWorkspace request; CallGetPVC (pvc_Key pvc); CallList (fst request)]
     ++ (if (0 <? length items)%nat
         then [CallStatusUpdate (withQueue instance (map cmd_Name items))]
         else [])).
Proof.
  intros Hget Hown Hpvc Hlist. step_reconcile.
  rewrite Hget, Hown. unfold pvc_Key in Hpvc. rewrite Hpvc, Hlist.
  rewrite appendNames_map.
  destruct (0 <? length items)%nat; [|reflexivity].
  destruct (StatusUpdate _ _ _) as [e st']. reflexivity.
Qed.

(** Every Status().Update of a pass carries the names of the listed
    commands. *)
Lemma Reconcile_status_update_inv (w : Workspace) :
  In (CallStatusUpdate w) (calls (Reconcile r request st)) ->
  exists instance items,
    GetWorkspace (client r) request st = inr instance
    /\ List (client r) (fst request) st = inr items
    /\ items <> []
    /\ w = withQueue instance (map cmd_Name items).
Proof.
  unfold calls. step_reconcile.
  destruct (GetWorkspace (client r) request st) as [e|instance] eqn:Hget.
  - destruct (IsNotFound e); simpl; intros [H|[]]; discriminate.
  - destruct (SetControllerReference _ _ _) as [e|pvc]; simpl.
    { intros [H|[]]; discriminate. }
    destruct (GetPVC _ _ _) as [e|found]; simpl.
    { destruct (IsNotFound e); simpl.
      - destruct (Create _ _ _) as [[e'|] st']; simpl;
          intros [H|[H|[H|[]]]]; discriminate.
      - intros [H|[H|[]]]; discriminate. }
    destruct (List _ _ _) as [e|items] eqn:Hlist; simpl.
    { intros [H|[H|[H|[]]]]; discriminate. }
    destruct items as [|item items]; simpl.
    { intros [H|[H|[H|[]]]]; discriminate. }
    destruct (StatusUpdate _ _ _) as [e st']; simpl.
    intros [H|[H|[H|[H|[]]]]]; try discriminate.
    injection H as <-. exists instance, (item :: items).
    rewrite appendNames_map. repeat split; [discriminate].
Qed.

End ReconcilePasses.

Section FakeClusterPasses.
Import Reconciler.

Lemma owner_by_metadata (w w' : Workspace) (s : Scheme) :
  ws_ObjectMeta w' = ws_ObjectMeta w ->
  SetControllerReference w' (newPVCForCR w') s
  = SetControllerReference w (newPVCForCR w) s.
Proof.
  intros Hmeta.
  unfold SetControllerReference, newPVCForCR, ws_Name, ws_Namespace.
  rewrite Hmeta. reflexivity.
Qed.

Lemma fold_keeps_claim (others : list PersistentVolumeClaim)
    (store : gmap NamespacedName PersistentVolumeClaim) (key : NamespacedName) :
  is_Some (store !! key) ->
  is_Some (fold_left (fun store p =>
                        match store !! pvc_Key p with
                        | Some _ => store
                        | None => <[ pvc_Key p := p ]> store
                        end) others store !! key).
Proof.
  revert store. induction others as [|p others IH]; intros store Hin; simpl; [exact Hin|].
  apply IH. destruct (store !! pvc_Key p) eqn:Hp; [exact Hin|].
  destruct (decide (pvc_Key p = key)) as [->|Hne].
  - rewrite lookup_insert_eq. eauto.
  - rewrite lookup_insert_ne by exact Hne. exact Hin.
Qed.

(** Whatever Create answers, the claim is stored afterwards. *)
Lemma fakeCreate_stores (p : PersistentVolumeClaim) (c : Cluster) :
  is_Some (pvcs (snd (fakeCreate p c)) !! pvc_Key p)
  /\ workspaces (snd (fakeCreate p c)) = workspaces c
  /\ commands (snd (fakeCreate p c)) = commands c.
Proof.
  unfold fakeCreate.
  destruct (otherActorsCreate c !! pvc_Key p) as [q|] eqn:Hq; simpl.
  - rewrite Hq. eauto.
  - rewrite lookup_insert_eq. eauto.
Qed.

Lemma fakeCreate_quiescent (p : PersistentVolumeClaim) (c : Cluster) :
  quiescent c ->
  fakeCreate p c =
    match pvcs c !! pvc_Key p with
    | Some _ => (Some AlreadyExists, c)
    | None =>
        (None, {| workspaces := workspaces c; pvcs := <[ pvc_Key p := p ]> (pvcs c);
                  commands := commands c; interference := [] |})
    end.
Proof.
  unfold quiescent, fakeCreate, otherActorsCreate. intros Hq. rewrite Hq. simpl.
  destruct (pvcs c !! pvc_Key p); [|reflexivity].
  destruct c; simpl in *. subst. reflexivity.
Qed.

Lemma fakeStatusUpdate_frame (w : Workspace) (c : Cluster) :
  pvcs (snd (fakeStatusUpdate w c)) = pvcs c
  /\ commands (snd (fakeStatusUpdate w c)) = commands c
  /\ interference (snd (fakeStatusUpdate w c)) = interference c.
Proof.
  unfold fakeStatusUpdate. destruct (workspaces c !! ws_Key w); simpl; auto.
Qed.

(** Writing a status keeps the metadata every workspace is stored with. *)
Lemma fakeStatusUpdate_metadata (w stored : Workspace) (c : Cluster) (key : NamespacedName) :
  workspaces c !! key = Some stored ->
  exists stored',
    workspaces (snd (fakeStatusUpdate w c)) !! key = Some stored'
    /\ ws_ObjectMeta stored' = ws_ObjectMeta stored.
Proof.
  intros Hkey. unfold fakeStatusUpdate.
  destruct (workspaces c !! ws_Key w) as [old|] eqn:Hold; simpl; [|eauto].
  destruct (decide (ws_Key w = key)) as [Heq|Hne].
  - rewrite Heq in *. rewrite lookup_insert_eq.
    assert (old = stored) as -> by congruence. eauto.
  - rewrite lookup_insert_ne by exact Hne. eauto.
Qed.

(** Writing the same status again changes nothing. *)
Lemma fakeStatusUpdate_again (w w' : Workspace) (c : Cluster) :
  ws_Key w' = ws_Key w ->
  ws_Status w' = ws_Status w ->
  snd (fakeStatusUpdate w' (snd (fakeStatusUpdate w c))) = snd (fakeStatusUpdate w c).
Proof.
  intros Hkey Hstatus. unfold fakeStatusUpdate at 2 3.
  destruct (workspaces c !! ws_Key w) as [old|] eqn:Hold; simpl.
  - unfold fakeStatusUpdate; simpl. rewrite Hkey, lookup_insert_eq. simpl.
    rewrite Hstatus, insert_insert_eq. reflexivity.
  - unfold fakeStatusUpdate. rewrite Hkey, Hold. reflexivity.
Qed.

Variables (s : Scheme) (request : NamespacedName).

(** A pass that found the claim: what it leaves and what it called. *)
Lemma pass_claim_found (c : Cluster) (instance : Workspace)
    (pvc found : PersistentVolumeClaim) :
  workspaces c !! request = Some instance ->
  SetControllerReference instance (newPVCForCR instance) s = inr pvc ->
  pvcs c !! pvc_Key pvc = Some found ->
  pass s request c =
    let items := List.filter (inNamespace (fst request)) (commands c) in
    ((emptyResult, None),
     (if (0 <? length items)%nat
      then snd (fakeStatusUpdate (withQueue instance (map cmd_Name items)) c)
      else c),
     [CallGetWorkspace request; CallGetPVC (pvc_Key pvc); CallList (fst request)]
     ++ (if (0 <? length items)%nat
         then [CallStatusUpdate (withQueue instance (map cmd_Name items))]
         else [])).
Proof.
  intros Hws Hown Hpvc. unfold pass.
  apply (Reconcile_claim_found (fakeReconciler s) request c instance pvc found); simpl.
  - unfold fakeGetWorkspace. now rewrite Hws.
  - exact Hown.
  - unfold fakeGetPVC. now rewrite Hpvc.
  - reflexivity.
Qed.

Lemma pass_claim_found_no_create (c : Cluster) (instance : Workspace)
    (pvc found : PersistentVolumeClaim) :
  workspaces c !! request = Some instance ->
  SetControllerReference instance (newPVCForCR instance) s = inr pvc ->
  pvcs c !! pvc_Key pvc = Some found ->
  List.filter isCreate (calls (pass s request c)) = [].
Proof.
  intros Hws Hown Hpvc.
  rewrite (pass_claim_found c instance pvc found Hws Hown Hpvc).
  unfold calls; simpl. destruct (0 <? length _)%nat; reflexivity.
Qed.

(** The pass after any pass creates nothing. *)
Lemma nextPass_creates_nothing (c : Cluster) :
  List.filter isCreate (calls (nextPass s request c)) = [].
Proof.
  unfold nextPass.
  destruct (workspaces c !! request) as [instance|] eqn:Hws.
  2:{ assert (pass s request c = ((emptyResult, None), c, [CallGetWorkspace request])) as ->.
      { apply (Reconcile_workspace_not_found (fakeReconciler s)). simpl.
        unfold fakeGetWorkspace. now rewrite Hws. }
      unfold after; simpl.
      assert (pass s request c = ((emptyResult, None), c, [CallGetWorkspace request])) as ->.
      { apply (Reconcile_workspace_not_found (fakeReconciler s)). simpl.
        unfold fakeGetWorkspace. now rewrite Hws. }
      reflexivity. }
  destruct (SetControllerReference instance (newPVCForCR instance) s) as [e|pvc] eqn:Hown.
  { assert (Hsame : pass s request c = ((emptyResult, Some e), c, [CallGetWorkspace request])).
    { unfold pass, Reconcile, bind, doGetWorkspace, ret; simpl.
      unfold fakeGetWorkspace. rewrite Hws, Hown. reflexivity. }
    rewrite Hsame. unfold after; simpl. rewrite Hsame. reflexivity. }
  destruct (pvcs c !! pvc_Key pvc) as [found|] eqn:Hpvc.
  - rewrite (pass_claim_found c instance pvc found Hws Hown Hpvc). unfold after; simpl.
    set (items := List.filter (inNamespace (fst request)) (commands c)).
    destruct (0 <? length items)%nat.
    + destruct (fakeStatusUpdate_metadata (withQueue instance (map cmd_Name items))
                  instance c request Hws) as (stored' & Hstored & Hmeta).
      destruct (fakeStatusUpdate_frame (withQueue instance (map cmd_Name items)) c)
        as (Hp & _ & _).
      apply (pass_claim_found_no_create _ stored' pvc found); [exact Hstored| |].
      * rewrite (owner_by_metadata instance stored' s Hmeta). exact Hown.
      * rewrite Hp. exact Hpvc.
    + apply (pass_claim_found_no_create _ instance pvc found); assumption.
  - assert (Hfirst : after (pass s request c) = snd (fakeCreate pvc c)).
    { unfold pass, Reconcile, bind, doGetWorkspace, doGetPVC, doCreate, ret, after; simpl.
      unfold fakeGetWorkspace, fakeGetPVC. rewrite Hws, Hown.
      unfold pvc_Key in Hpvc. rewrite Hpvc. simpl.
      destruct (fakeCreate pvc c) as [[e|] c']; reflexivity. }
    rewrite Hfirst.
    destruct (fakeCreate_stores pvc c) as ([found Hfound] & Hw & _).
    apply (pass_claim_found_no_create _ instance pvc found); [|exact Hown|exact Hfound].
    rewrite Hw. exact Hws.
Qed.

(** A pass that created nothing is followed by a pass that changes nothing. *)
Lemma pass_settles (c : Cluster) :
  List.filter isCreate (calls (pass s request c)) = [] ->
  after (nextPass s request c) = after (pass s request c).
Proof.
  unfold nextPass.
  destruct (workspaces c !! request) as [instance|] eqn:Hws.
  2:{ assert (Hsame : pass s request c
                      = ((emptyResult, None), c, [CallGetWorkspace request])).
      { apply (Reconcile_workspace_not_found (fakeReconciler s)). simpl.
        unfold fakeGetWorkspace. now rewrite Hws. }
      rewrite Hsame. unfold after; simpl. now rewrite Hsame. }
  destruct (SetControllerReference instance (newPVCForCR instance) s) as [e|pvc] eqn:Hown.
  { assert (Hsame : pass s request c = ((emptyResult, Some e), c, [CallGetWorkspace request])).
    { unfold pass, Reconcile, bind, doGetWorkspace, ret; simpl.
      unfold fakeGetWorkspace. rewrite Hws, Hown. reflexivity. }
    rewrite Hsame. unfold after; simpl. now rewrite Hsame. }
  destruct (pvcs c !! pvc_Key pvc) as [found|] eqn:Hpvc.
  - intros _.
    rewrite (pass_claim_found c instance pvc found Hws Hown Hpvc). unfold after; simpl.
    set (items := List.filter (inNamespace (fst request)) (commands c)).
    destruct (0 <? length items)%nat eqn:Hsome.
    + set (w := withQueue instance (map cmd_Name items)).
      destruct (fakeStatusUpdate_metadata w instance c request Hws)
        as (stored' & Hstored & Hmeta).
      destruct (fakeStatusUpdate_frame w c) as (Hp & Hc & _).
      rewrite (pass_claim_found _ stored' pvc found Hstored).
      * simpl. rewrite Hc. fold items. rewrite Hsome.
        apply fakeStatusUpdate_again; [|reflexivity].
        unfold ws_Key, ws_Namespace, ws_Name, w; simpl. now rewrite Hmeta.
      * rewrite (owner_by_metadata instance stored' s Hmeta). exact Hown.
      * rewrite Hp. exact Hpvc.
    + rewrite (pass_claim_found c instance pvc found Hws Hown Hpvc). simpl.
      fold items. now rewrite Hsome.
  - unfold pass at 1, Reconcile, bind, doGetWorkspace, doGetPVC, doCreate, ret, calls; simpl.
    unfold fakeGetWorkspace, fakeGetPVC. rewrite Hws, Hown.
    unfold pvc_Key in Hpvc. rewrite Hpvc. simpl.
    destruct (fakeCreate pvc c) as [[e|] c']; simpl; discriminate.
Qed.

End FakeClusterPasses.

Section ReconcilerClaims.
Import Reconciler Fixtures.

(** C1 (as the code has it): whenever a pass writes the status queue, the
    queue it writes holds exactly the names of all the commands the list call
    returned for the namespace of the request, in list order. Neither the
    workspace label nor the Completed condition of a command is consulted. *)
Theorem queue_written_lists_every_command {St : Type} (r : ReconcileWorkspace St)
    (request : NamespacedName) (st : St) (w : Workspace) :
  In (CallStatusUpdate w) (calls (Reconcile r request st)) ->
  exists items,
    List (client r) (fst request) st = inr items
    /\ Queue (ws_Status w) = map cmd_Name items.
Proof.
  intros Hin.
  destruct (Reconcile_status_update_inv r request st w Hin)
    as (instance & items & _ & Hlist & _ & ->).
  exists items. split; [exact Hlist|reflexivity].
Qed.

Lemma queue_written_lists_every_command_witness :
  exists items,
    fakeList "default" (settled [] [planCompleted; plan1; plan2; plan3]) = inr items
    /\ ["plan-0"; "plan-1"; "plan-2"; "plan-3"] = map cmd_Name items.
Proof.
  apply (queue_written_lists_every_command reconciler request1
           (settled [] [planCompleted; plan1; plan2; plan3])
           (withQueue workspace1 ["plan-0"; "plan-1"; "plan-2"; "plan-3"])).
  vm_compute. right; right; right; left. reflexivity.
Defined.

(** C1 as stated fails: with the claim in place and four commands in the
    namespace, of which one is labelled for another workspace and one is
    completed, the queue written holds all four names, not the two the
    specification selects. *)
Lemma queue_not_filtered :
  queueOf request1
    (after (Reconcile reconciler request1 (settled [] [planCompleted; plan1; plan2; plan3])))
  = ["plan-0"; "plan-1"; "plan-2"; "plan-3"]
  /\ spec_queueMembers "workspace-1" [planCompleted; plan1; plan2; plan3]
     = ["plan-1"; "plan-2"]
  /\ queueOf request1
       (after (Reconcile reconciler request1
                 (settled [] [planCompleted; plan1; plan2; plan3])))
     <> spec_queueMembers "workspace-1" [planCompleted; plan1; plan2; plan3]
  /\ belongsTo "workspace-1" plan3 = false
  /\ isCompleted planCompleted = true.
Proof. vm_compute. repeat split. discriminate. Qed.

(** C2 (as the code has it): the queue a pass writes does not depend on the
    queue the workspace held before: it is rebuilt from the listed commands,
    in list order, with no merge and no ordering by creation time. Starting
    from the queue plan-1 and listing plan-1 and plan-2 gives plan-1, plan-2. *)
Theorem queue_rebuilt_from_list (s : Scheme) (request : NamespacedName)
    (previous : list string) (c : Cluster) :
  writtenQueues (calls (pass s request (withPreviousQueue request previous c)))
  = writtenQueues (calls (pass s request c))
  /\ (writtenQueues (calls (pass s request c)) = []
      \/ writtenQueues (calls (pass s request c))
         = [map cmd_Name (List.filter (inNamespace (fst request)) (commands c))])
  /\ queueOf request1 (after (pass registeredScheme request1 (settled ["plan-1"] [plan1; plan2])))
     = ["plan-1"; "plan-2"].
Proof.
  split; [|split].
  - f_equal. unfold pass, calls, Reconcile, bind, doGetWorkspace, doGetPVC, doCreate,
      doList, doStatusUpdate, ret; simpl.
    unfold fakeGetWorkspace, withPreviousQueue; simpl. rewrite lookup_alter_eq.
    destruct (workspaces c !! request) as [w|]; simpl; [|reflexivity].
    change (newPVCForCR (withQueue w previous)) with (newPVCForCR w).
    change (SetControllerReference (withQueue w previous) (newPVCForCR w) s)
      with (SetControllerReference w (newPVCForCR w) s).
    destruct (SetControllerReference w (newPVCForCR w) s) as [e|pvc]; [reflexivity|].
    unfold fakeGetPVC; simpl.
    destruct (pvcs c !! (pvc_Namespace pvc, pvc_Name pvc)) as [found|]; simpl.
    + unfold fakeList; simpl.
      destruct (0 <? length _)%nat; [|reflexivity].
      change (withQueue (withQueue w previous) ?q) with (withQueue w q).
      destruct (fakeStatusUpdate _ _) as [e1 c1].
      destruct (fakeStatusUpdate _ _) as [e2 c2]. reflexivity.
    + unfold fakeCreate; simpl.
      fold (otherActorsCreate c).
      change (otherActorsCreate
                {| workspaces := alter (fun w0 => withQueue w0 previous) request (workspaces c);
                   pvcs := pvcs c; commands := commands c;
                   interference := interference c |})
        with (otherActorsCreate c).
      destruct (otherActorsCreate c !! pvc_Key pvc); reflexivity.
  - unfold pass, calls, Reconcile, bind, doGetWorkspace, doGetPVC, doCreate,
      doList, doStatusUpdate, ret; simpl.
    destruct (fakeGetWorkspace request c) as [e|w]; simpl.
    { destruct (IsNotFound e); left; reflexivity. }
    destruct (SetControllerReference w (newPVCForCR w) s) as [e|pvc]; [left; reflexivity|].
    destruct (fakeGetPVC _ c) as [e|found]; simpl.
    { destruct (IsNotFound e); [|left; reflexivity].
      destruct (fakeCreate pvc c) as [[e'|] c']; left; reflexivity. }
    unfold fakeList. rewrite appendNames_map.
    destruct (0 <? length _)%nat; [|left; reflexivity].
    destruct (fakeStatusUpdate _ _) as [e1 c1]. right. reflexivity.
  - vm_compute. reflexivity.
Qed.

(** C2 as stated fails. Listed in the order plan-1, plan-9 with plan-9 the
    older command, the queue written is plan-1, plan-9 where the merge of the
    specification orders by creation time; and a previous queue plan-2, plan-1
    comes back as plan-1, plan-2 where the merge keeps its order. *)
Lemma queue_not_merged :
  queueOf request1 (after (Reconcile reconciler request1 (settled [] [plan1; planEarly])))
  <> spec_buildQueue [] [plan1; planEarly]
  /\ queueOf request1
       (after (Reconcile reconciler request1 (settled ["plan-2"; "plan-1"] [plan1; plan2])))
     <> spec_buildQueue ["plan-2"; "plan-1"] [plan1; plan2].
Proof. split; vm_compute; discriminate. Qed.

(** C3 (as the code has it): with nothing else touching the cluster between
    two passes over the same workspace, the second pass issues no create
    call; when the first pass issued none either (the claim was there
    already), the second leaves the cluster, and with it the workspace
    status, as the first left it; and every pass from the third on changes
    nothing. *)
Theorem second_pass_creates_nothing (s : Scheme) (request : NamespacedName) (c : Cluster) :
  List.filter isCreate (calls (nextPass s request c)) = []
  /\ (List.filter isCreate (calls (pass s request c)) = [] ->
      after (nextPass s request c) = after (pass s request c))
  /\ after (nextPass s request (after (pass s request c))) = after (nextPass s request c).
Proof.
  split; [|split].
  - apply nextPass_creates_nothing.
  - apply pass_settles.
  - apply (pass_settles s request (after (pass s request c))).
    apply nextPass_creates_nothing.
Qed.

Lemma second_pass_creates_nothing_witness :
  List.filter isCreate
    (calls (nextPass registeredScheme request1 (settled [] [plan1; plan2]))) = []
  /\ after (nextPass registeredScheme request1 (settled [] [plan1; plan2]))
     = after (pass registeredScheme request1 (settled [] [plan1; plan2])).
Proof.
  destruct (second_pass_creates_nothing registeredScheme request1
              (settled [] [plan1; plan2])) as (Hcreate & Hsame & _).
  split; [exact Hcreate|]. apply Hsame. vm_compute. reflexivity.
Defined.

(** C3 as stated fails: on a workspace that has no claim yet, the first pass
    creates the claim and returns, and the second pass, over the unchanged
    cluster, writes the queue: the status after the second pass is not the
    status after the first. *)
Lemma second_pass_changes_status :
  statusOf request1 (after (nextPass registeredScheme request1 (fresh [plan1; plan2])))
  <> statusOf request1 (after (pass registeredScheme request1 (fresh [plan1; plan2])))
  /\ returned (pass registeredScheme request1 (fresh [plan1; plan2])) = (emptyResult, None)
  /\ queueOf request1 (after (pass registeredScheme request1 (fresh [plan1; plan2]))) = []
  /\ queueOf request1 (after (nextPass registeredScheme request1 (fresh [plan1; plan2])))
     = ["plan-1"; "plan-2"].
Proof. split; [vm_compute; discriminate|]. vm_compute. repeat split. Qed.

End ReconcilerClaims.

Section ClaimCreation.
Import Reconciler Fixtures.

Lemma length_append (a b : string) :
  String.length (a +:+ b) = String.length a + String.length b.
Proof. induction a as [|ch a IH]; simpl; [reflexivity|now rewrite IH]. Qed.

Lemma append_inj_suffix (t a b : string) : a +:+ t = b +:+ t -> a = b.
Proof.
  revert b. induction a as [|ch a IH]; intros [|ch' b] Heq.
  - reflexivity.
  - apply (f_equal String.length) in Heq.
    rewrite !length_append in Heq. simpl in Heq. lia.
  - apply (f_equal String.length) in Heq.
    rewrite !length_append in Heq. simpl in Heq. lia.
  - cbn in Heq. injection Heq as -> Heq. now rewrite (IH b Heq).
Qed.

(** C4 (as the code has it): when the claim is not found and the create that
    follows fails because the claim already exists, the pass returns that
    already-exists error to its caller and makes no further call. *)
Theorem Reconcile_returns_already_exists {St : Type} (r : ReconcileWorkspace St)
    (request : NamespacedName) (st st' : St) (instance : Workspace)
    (pvc : PersistentVolumeClaim) :
  GetWorkspace (client r) request st = inr instance ->
  SetControllerReference instance (newPVCForCR instance) (scheme r) = inr pvc ->
  GetPVC (client r) (pvc_Key pvc) st = inl NotFound ->
  Create (client r) pvc st = (Some AlreadyExists, st') ->
  Reconcile r request st =
    ((emptyResult, Some AlreadyExists), st',
     [CallGetWorkspace request; CallGetPVC (pvc_Key pvc); CallCreate pvc]).
Proof.
  intros Hget Hown Hpvc Hcreate.
  unfold Reconcile, bind, doGetWorkspace, doGetPVC, doCreate, ret.
  rewrite Hget, Hown. unfold pvc_Key in Hpvc. rewrite Hpvc. simpl.
  rewrite Hcreate. reflexivity.
Qed.

Lemma Reconcile_returns_already_exists_witness :
  Reconcile reconciler request1 raced =
    ((emptyResult, Some AlreadyExists), snd (fakeCreate claim1 raced),
     [CallGetWorkspace request1; CallGetPVC (pvc_Key claim1); CallCreate claim1]).
Proof.
  apply (Reconcile_returns_already_exists reconciler request1 raced
           (snd (fakeCreate claim1 raced)) workspace1 claim1);
    vm_compute; reflexivity.
Defined.

(** C4 as stated fails: the reconciler looks for the claim and does not find
    it, another actor creates it, the reconciler's create is answered with
    already-exists, and the pass ends with that error instead of success. *)
Lemma already_exists_is_propagated :
  fakeGetPVC (pvc_Key claim1) raced = inl NotFound
  /\ fst (fakeCreate claim1 raced) = Some AlreadyExists
  /\ snd (returned (Reconcile reconciler request1 raced)) = Some AlreadyExists
  /\ snd (returned (Reconcile reconciler request1 raced)) <> None.
Proof. vm_compute. repeat split. discriminate. Qed.

(** C10: on the pass that does not find the claim and creates it, the
    reconciler returns right after the create, without error: the calls of
    the pass are the two reads and the create, no list of commands and no
    status write, and the cluster is left as the create left it. *)
Theorem Reconcile_returns_after_create {St : Type} (r : ReconcileWorkspace St)
    (request : NamespacedName) (st st' : St) (instance : Workspace)
    (pvc : PersistentVolumeClaim) :
  GetWorkspace (client r) request st = inr instance ->
  SetControllerReference instance (newPVCForCR instance) (scheme r) = inr pvc ->
  GetPVC (client r) (pvc_Key pvc) st = inl NotFound ->
  Create (client r) pvc st = (None, st') ->
  returned (Reconcile r request st) = (emptyResult, None)
  /\ after (Reconcile r request st) = st'
  /\ calls (Reconcile r request st)
     = [CallGetWorkspace request; CallGetPVC (pvc_Key pvc); CallCreate pvc]
  /\ List.filter isList (calls (Reconcile r request st)) = []
  /\ List.filter isStatusUpdate (calls (Reconcile r request st)) = [].
Proof.
  intros Hget Hown Hpvc Hcreate.
  assert (Hrun : Reconcile r request st =
                 ((emptyResult, None), st',
                  [CallGetWorkspace request; CallGetPVC (pvc_Key pvc); CallCreate pvc])).
  { unfold Reconcile, bind, doGetWorkspace, doGetPVC, doCreate, ret.
    rewrite Hget, Hown. unfold pvc_Key in Hpvc. rewrite Hpvc. simpl.
    rewrite Hcreate. reflexivity. }
  rewrite Hrun. repeat split.
Qed.

Lemma Reconcile_returns_after_create_witness :
  returned (Reconcile reconciler request1 (fresh [plan1; plan2])) = (emptyResult, None)
  /\ queueOf request1 (after (Reconcile reconciler request1 (fresh [plan1; plan2]))) = []
  /\ List.filter isList (calls (Reconcile reconciler request1 (fresh [plan1; plan2]))) = [].
Proof.
  destruct (Reconcile_returns_after_create reconciler request1 (fresh [plan1; plan2])
              (snd (fakeCreate claim1 (fresh [plan1; plan2]))) workspace1 claim1)
    as (Hret & Hafter & _ & Hlist & _); try (vm_compute; reflexivity).
  split; [exact Hret|]. split; [|exact Hlist].
  rewrite Hafter. vm_compute. reflexivity.
Defined.

(** C8 (as the code has it): the one dependent resource this reconciler
    creates, the cache volume claim, is named from the workspace name alone,
    as the workspace name followed by -pvc (never workspace- followed by the
    name), in the namespace of the workspace; different workspaces get
    different claims, and the existence check of a pass reads exactly that
    name. *)
Theorem claim_named_from_workspace (cr : Workspace) :
  pvc_Name (newPVCForCR cr) = ws_Name cr +:+ "-pvc"
  /\ pvc_Namespace (newPVCForCR cr) = ws_Namespace cr
  /\ pvc_Name (newPVCForCR cr) <> "workspace-" +:+ ws_Name cr
  /\ (forall cr' : Workspace,
        pvc_Key (newPVCForCR cr') = pvc_Key (newPVCForCR cr) -> ws_Key cr' = ws_Key cr)
  /\ (forall (St : Type) (r : ReconcileWorkspace St) (request : NamespacedName) (st : St)
             (pvc : PersistentVolumeClaim),
        GetWorkspace (client r) request st = inr cr ->
        SetControllerReference cr (newPVCForCR cr) (scheme r) = inr pvc ->
        nth_error (calls (Reconcile r request st)) 1
        = Some (CallGetPVC (ws_Namespace cr, ws_Name cr +:+ "-pvc"))).
Proof.
  split; [reflexivity|]. split; [reflexivity|]. split; [|split].
  - change (pvc_Name (newPVCForCR cr)) with (ws_Name cr +:+ "-pvc").
    intros Heq. apply (f_equal String.length) in Heq.
    rewrite !length_append in Heq. simpl in Heq. lia.
  - intros cr'. rewrite !newPVCForCR_key. unfold ws_Key.
    intros Heq. injection Heq as Hns Hname.
    now rewrite Hns, (append_inj_suffix _ _ _ Hname).
  - intros St r request st pvc Hget Hown.
    pose proof (SetControllerReference_keeps_key _ _ _ _ Hown) as Hkey.
    rewrite newPVCForCR_key in Hkey. unfold pvc_Key in Hkey.
    unfold calls, Reconcile, bind, doGetWorkspace, doGetPVC, doCreate, doList,
      doStatusUpdate, ret.
    rewrite Hget, Hown, Hkey.
    destruct (GetPVC _ _ _) as [e|found]; simpl.
    + destruct (IsNotFound e); simpl; [|reflexivity].
      destruct (Create _ _ _) as [[e'|] st']; reflexivity.
    + destruct (List _ _ _) as [e|items]; simpl; [reflexivity|].
      destruct (0 <? length items)%nat; [|reflexivity].
      destruct (StatusUpdate _ _ _) as [e st']. reflexivity.
Qed.

Lemma claim_named_from_workspace_witness :
  nth_error (calls (Reconcile reconciler request1 (fresh []))) 1
  = Some (CallGetPVC ("default", "workspace-1-pvc")).
Proof.
  destruct (claim_named_from_workspace workspace1) as (_ & _ & _ & _ & Hcheck).
  apply (Hcheck Cluster reconciler request1 (fresh []) claim1); vm_compute; reflexivity.
Defined.

(** C8 as stated fails: the claim of workspace-1 is named workspace-1-pvc,
    which does not follow the pattern workspace- followed by the name. *)
Lemma claim_name_is_not_prefixed :
  pvc_Name (newPVCForCR workspace1) = "workspace-1-pvc"
  /\ pvc_Name (newPVCForCR workspace1) <> "workspace-" +:+ ws_Name workspace1.
Proof. split; [reflexivity|vm_compute; discriminate]. Qed.

End ClaimCreation.

(** * Properties of the workspace-creation command *)

Section CommandCleanup.
Import V1alpha1 WorkspaceNew.

Context {St : Type} (f : Collaborators St).

Ltac split_cases :=
  repeat (cbn -[waitersFor] in *;
          match goal with
          | |- context [match ?x with _ => _ end] =>
              lazymatch x with
              | context [match _ with _ => _ end] => fail
              | _ => destruct x eqn:?
              end
          end).

(** run leaves the identity of the options alone, deletes nothing, its
    created flags stand for exactly the creates that succeeded, and the
    workspace it sends carries the spec of the options. *)
Lemma run_accounts (o : newOptions) (st : St) :
  unflagged o ->
  namespace (finalOptions (run f (o, st))) = namespace o
  /\ workspace (finalOptions (run f (o, st))) = workspace o
  /\ workspaceSpec (finalOptions (run f (o, st))) = workspaceSpec o
  /\ created (calls (run f (o, st))) = flagged (finalOptions (run f (o, st)))
  /\ deleted (calls (run f (o, st))) = []
  /\ (forall r, In r (flat_map foundExisting (calls (run f (o, st)))) ->
                ~ In r (flagged (finalOptions (run f (o, st)))))
  /\ (forall ns w res, In (CallCreateWorkspace ns w res) (calls (run f (o, st))) ->
                       Cache (Spec w) = Cache (workspaceSpec o)).
Proof.
  intros (Hw & Hsa & Hsecret).
  destruct o; cbn in Hw, Hsa, Hsecret; subst.
  unfold run, createServiceAccountIfMissing, createSecretIfMissing, createWorkspace,
    createServiceAccount, createSecret, attach, collaborate, perform, observe, modify,
    options, bind, ret, finalOptions, calls, created, deleted, flagged.
  split_cases; repeat split; try reflexivity.
  all: try (intros r Hin; cbn in *; intuition congruence).
  all: intros ns' w' res' Hin; cbn in *; intuition (try discriminate).
  all: match goal with H : CallCreateWorkspace _ _ _ = _ |- _ => now inversion H end.
Qed.

(** cleanup asks to delete what the created flags stand for, newest first,
    and nothing else. *)
Lemma cleanup_accounts (o : newOptions) (st : St) :
  deleted (calls (cleanup f (o, st))) = rev (flagged o)
  /\ created (calls (cleanup f (o, st))) = []
  /\ flat_map foundExisting (calls (cleanup f (o, st))) = []
  /\ (forall ns w res, ~ In (CallCreateWorkspace ns w res) (calls (cleanup f (o, st)))).
Proof.
  unfold cleanup, deleteResource, perform, options, bind, ret, calls, deleted, created,
    flagged.
  cbn.
  destruct (createdWorkspace o), (createdSecret o), (createdServiceAccount o); cbn;
    repeat match goal with
           | |- context [Delete f ?k ?ns ?n ?s] => destruct (Delete f k ns n s)
           end; cbn; repeat split; try reflexivity;
    intros ns w res Hin; intuition discriminate.
Qed.



(** The options RunE hands to run. *)
Lemma RunE_unfold (fl : Flags) (name : string) (st : St) :
  envNew f (default defaultNamespace (flag_namespace fl)) name = None ->
  factoryCreate f (default "" (flag_context fl)) st = None ->
  exists o1,
    unflagged o1
    /\ (StorageClass (Cache (workspaceSpec o1)) = flag_storage_class fl
        /\ Size (Cache (workspaceSpec o1)) = default defaultCacheSize (flag_size fl))
    /\ forall g, (forall s, run g s = run f s) ->
        envNew g = envNew f -> factoryCreate g = factoryCreate f ->
        Execute g fl [name] st =
        (let '(err, s2, t2) := run f (o1, st) in
         let '(_, s3, t3) :=
           match err with
           | Some _ =>
               if negb (default false (flag_no_cleanup fl)) then cleanup g s2
               else (tt, s2, [])
           | None => (tt, s2, [])
           end in
         (err, s3, t2 ++ t3)).
Proof.
  intros Henv Hfactory.
  exists (if negb (IsFlagPassed (flag_storage_class fl))
          then setStorageClass None (setWorkspace name (newCmd fl))
          else setWorkspace name (newCmd fl)).
  split; [|split].
  - destruct (negb _); repeat split.
  - destruct (flag_storage_class fl) eqn:Hclass; cbn; rewrite ?Hclass; split; reflexivity.
  - intros g Hrun Henvg Hfg.
    unfold Execute, RunE, bind, modify, options, observe, ret. cbn -[run cleanup].
    rewrite Henvg, Hfg, Henv.
    destruct (negb (IsFlagPassed (flag_storage_class fl))); cbn -[run cleanup];
      rewrite Hfactory, Hrun;
      destruct (run f _) as [[err s2] t2]; cbn -[cleanup];
      destruct err; cbn -[cleanup]; rewrite ?app_nil_r; try reflexivity;
      destruct (negb (default false (flag_no_cleanup fl))); cbn -[cleanup];
      rewrite ?app_nil_r; try reflexivity;
      destruct (cleanup g s2) as [[u s3] t3]; rewrite ?app_nil_r; reflexivity.
Qed.

(** Before run is reached nothing is called, whatever Delete does. *)
Lemma Execute_without_run (g : Collaborators St) (fl : Flags) (args : list string) (st : St) :
  envNew g = envNew f -> factoryCreate g = factoryCreate f ->
  match args with
  | [name] =>
      envNew f (default defaultNamespace (flag_namespace fl)) name <> None
      \/ factoryCreate f (default "" (flag_context fl)) st <> None
  | _ => True
  end ->
  calls (Execute g fl args st) = []
  /\ returned (Execute g fl args st) = returned (Execute f fl args st).
Proof.
  intros Henv Hfactory Hearly.
  unfold Execute, RunE, bind, modify, options, observe, ret, calls, returned.
  destruct args as [|name [|another rest]]; try (split; reflexivity).
  cbn -[run cleanup]. rewrite Henv, Hfactory.
  destruct (envNew f _ name) as [err|]; [split; reflexivity|].
  destruct Hearly as [Hearly|Hearly]; [congruence|].
  destruct (negb (IsFlagPassed (flag_storage_class fl))); cbn -[run cleanup];
    destruct (factoryCreate f _ st) as [err|]; try congruence; split; reflexivity.
Qed.


(** The workspace an invocation sends to the cluster carries the storage
    class and the cache size of the command line. *)
Lemma Execute_workspace_sent (fl : Flags) (args : list string) (st : St)
    (ns : string) (w : Workspace) (res : option APIError) :
  In (CallCreateWorkspace ns w res) (calls (Execute f fl args st)) ->
  StorageClass (Cache (Spec w)) = flag_storage_class fl
  /\ Size (Cache (Spec w)) = default defaultCacheSize (flag_size fl).
Proof.
  assert (Hearly :
            match args with
            | [name] =>
                envNew f (default defaultNamespace (flag_namespace fl)) name <> None
                \/ factoryCreate f (default "" (flag_context fl)) st <> None
            | _ => True
            end ->
            In (CallCreateWorkspace ns w res) (calls (Execute f fl args st)) -> False).
  { intros Hcase.
    destruct (Execute_without_run f fl args st eq_refl eq_refl Hcase) as (-> & _).
    intros []. }
  destruct args as [|name [|another rest]];
    try (intros Hin; exfalso; exact (Hearly I Hin)).
  destruct (envNew f (default defaultNamespace (flag_namespace fl)) name) as [err|] eqn:Henv.
  { intros Hin. exfalso. apply Hearly; [left; discriminate|exact Hin]. }
  destruct (factoryCreate f (default "" (flag_context fl)) st) as [err|] eqn:Hfactory.
  { intros Hin. exfalso. apply Hearly; [right; discriminate|exact Hin]. }
  clear Hearly.
  destruct (RunE_unfold fl name st Henv Hfactory) as (o1 & Hfresh & (Hclass & Hsize) & Hrun).
  rewrite (Hrun f (fun s => eq_refl) eq_refl eq_refl). clear Hrun.
  destruct (run_accounts o1 st Hfresh) as (_ & _ & _ & _ & _ & _ & Hsent).
  destruct (run f (o1, st)) as [[err [o2 st2]] t2].
  unfold calls in Hsent. cbn in Hsent.
  assert (Hrun : In (CallCreateWorkspace ns w res) t2 ->
                 StorageClass (Cache (Spec w)) = flag_storage_class fl
                 /\ Size (Cache (Spec w)) = default defaultCacheSize (flag_size fl)).
  { intros Hin. rewrite (Hsent ns w res Hin). split; assumption. }
  destruct err as [e'|]; cbn -[cleanup].
  - destruct (negb (default false (flag_no_cleanup fl))).
    + destruct (cleanup_accounts o2 st2) as (_ & _ & _ & Hnone).
      destruct (cleanup f (o2, st2)) as [[u s3] t3].
      unfold calls in *. cbn in Hnone |- *.
      intros Hin. apply in_app_or in Hin. destruct Hin as [Hin|Hin]; [auto|].
      destruct (Hnone ns w res Hin).
    + unfold calls. cbn. rewrite app_nil_r. exact Hrun.
  - unfold calls. cbn. rewrite app_nil_r. exact Hrun.
Qed.

End CommandCleanup.

Section CommandClaims.
Import V1alpha1 WorkspaceNew.


(** C6: a workspace whose cache size is unset gets a claim that requests
    exactly 1Gi of storage; and the workspace that an invocation of the
    command creates carries the storage class of the command line as it was
    given: none when the flag was not passed (not the empty string), the empty
    string when it was passed empty, the name otherwise. *)
Theorem cache_defaults {St : Type} (f : Collaborators St) (cr : Reconciler.Workspace)
    (fl : Flags) (args : list string) (st : St)
    (ns : string) (w : Workspace) (res : option APIError) :
  Reconciler.Size (Reconciler.Cache (Reconciler.ws_Spec cr)) = "" ->
  In (CallCreateWorkspace ns w res) (calls (Execute f fl args st)) ->
  Reconciler.storageRequest (Reconciler.newPVCForCR cr) = Some "1Gi"
  /\ StorageClass (Cache (Spec w)) = flag_storage_class fl
  /\ (flag_storage_class fl = None ->
      StorageClass (Cache (Spec w)) = None /\ StorageClass (Cache (Spec w)) <> Some "")
  /\ (flag_size fl = None -> Size (Cache (Spec w)) = "1Gi").
Proof.
  intros _ Hsent.
  destruct (Execute_workspace_sent f fl args st ns w res Hsent) as (Hclass & Hsize).
  split; [reflexivity|]. split; [exact Hclass|]. split.
  - intros Hunset. rewrite Hclass, Hunset. split; [reflexivity|discriminate].
  - intros Hunset. rewrite Hsize, Hunset. reflexivity.
Qed.

Lemma cache_defaults_witness :
  Reconciler.storageRequest (Reconciler.newPVCForCR Fixtures.workspace1) = Some "1Gi"
  /\ StorageClass (Cache (Spec FakeWorld.fooWorkspace)) = None.
Proof.
  destruct (cache_defaults FakeWorld.collaborators Fixtures.workspace1 noFlags ["foo"]
              FakeWorld.secretOnly "default" FakeWorld.fooWorkspace None)
    as (Hrequest & Hclass & _).
  - reflexivity.
  - vm_compute. right; right; right; left. reflexivity.
  - split; [exact Hrequest|exact Hclass].
Defined.

End CommandClaims.

(** * Properties of the backend config map and of the health condition *)

Section BackendRendering.
Import V1alpha1 Backend.

Lemma ascii_compare_trans (a b c : ascii) (o : comparison) :
  Ascii.compare a b = o -> Ascii.compare b c = o -> Ascii.compare a c = o.
Proof.
  unfold Ascii.compare. destruct o; intros Hab Hbc.
  - apply N.compare_eq_iff in Hab. apply N.compare_eq_iff in Hbc.
    apply N.compare_eq_iff. congruence.
  - apply N.compare_lt_iff in Hab. apply N.compare_lt_iff in Hbc.
    apply N.compare_lt_iff. exact (N.lt_trans _ _ _ Hab Hbc).
  - apply N.compare_gt_iff in Hab. apply N.compare_gt_iff in Hbc.
    apply N.compare_gt_iff. exact (N.lt_trans _ _ _ Hbc Hab).
Qed.

Lemma string_leb_trans (a b c : string) :
  String.leb a b = true -> String.leb b c = true -> String.leb a c = true.
Proof.
  unfold String.leb. revert b c.
  induction a as [|x a IH]; intros [|y b] [|z c]; cbn; try easy.
  destruct (Ascii.compare x y) eqn:Hxy; destruct (Ascii.compare y z) eqn:Hyz;
    try easy.
  - apply Ascii.compare_eq_iff in Hxy, Hyz. subst.
    assert (Ascii.compare z z = Eq) as -> by (unfold Ascii.compare; apply N.compare_refl).
    apply IH.
  - apply Ascii.compare_eq_iff in Hxy. subst. now rewrite Hyz.
  - apply Ascii.compare_eq_iff in Hyz. subst. now rewrite Hxy.
  - now rewrite (ascii_compare_trans x y z Lt Hxy Hyz).
Qed.

#[local] Instance KeyLe_total : Total KeyLe.
Proof.
  intros a b. unfold KeyLe.
  destruct (String.leb_total (fst a) (fst b)) as [H|H]; rewrite H; [left|right]; exact I.
Qed.

#[local] Instance KeyLe_trans : Transitive KeyLe.
Proof.
  intros a b c. unfold KeyLe. intros Hab Hbc.
  apply Is_true_true in Hab, Hbc. apply Is_true_true.
  exact (string_leb_trans _ _ _ Hab Hbc).
Qed.

(** C7: the backend config map holds under backend.ini one line per backend
    setting, the key, a tab, the equals sign and the quoted value, in
    ascending key order, and the empty string when there are no settings;
    under backend.tf a terraform block that names the backend type. The gcs
    backend with a bucket and a prefix renders two lines, bucket first; the
    local backend without settings renders an empty backend.ini. *)
Theorem backend_config_rendering (b : BackendSpec) :
  configMapData b !! "backend.ini"
  = Some (concatStrings (map iniLine (sortedSettings (backend_Config b))))
  /\ (forall k v, (k, v) ∈ sortedSettings (backend_Config b) <-> backend_Config b !! k = Some v)
  /\ length (map iniLine (sortedSettings (backend_Config b))) = size (backend_Config b)
  /\ StronglySorted KeyLe (sortedSettings (backend_Config b))
  /\ backendIni {| backend_Type := backend_Type b; backend_Config := ∅ |} = ""
  /\ configMapData b !! "backend.tf"
     = Some ("terraform {" +:+ newline +:+ "  backend " +:+ quote +:+ backend_Type b
             +:+ quote +:+ " {}" +:+ newline +:+ "}" +:+ newline)
  /\ configMapData gcsBackend !! "backend.ini"
     = Some ("bucket" +:+ tab +:+ "= " +:+ quote +:+ "workspace-1-state" +:+ quote +:+ newline
             +:+ "prefix" +:+ tab +:+ "= " +:+ quote +:+ "dev" +:+ quote +:+ newline)
  /\ configMapData localBackend !! "backend.ini" = Some "".
Proof.
  repeat split.
  - intros Hin. apply elem_of_map_to_list.
    unfold sortedSettings in Hin. now rewrite merge_sort_Permutation in Hin.
  - intros Hin. unfold sortedSettings. rewrite merge_sort_Permutation.
    now apply elem_of_map_to_list.
  - rewrite length_map. unfold sortedSettings.
    rewrite merge_sort_Permutation. apply length_map_to_list.
  - unfold sortedSettings. apply StronglySorted_merge_sort; apply _.
Qed.

End BackendRendering.

Section HealthCondition.
Import V1alpha1 Health.

Lemma GetCondition_SetCondition (cs : list Condition) (new : Condition) :
  cond_Status <$> GetCondition (SetCondition cs new) (cond_Type new)
  = Some (cond_Status new).
Proof.
  induction cs as [|c cs IH]; cbn.
  - now rewrite String.eqb_refl.
  - destruct (String.eqb (cond_Type c) (cond_Type new)) eqn:Htype; cbn.
    + destruct (ConditionStatus_eqb (cond_Status c) (cond_Status new)) eqn:Hstatus; cbn;
        now rewrite String.eqb_refl.
    + rewrite Htype. exact IH.
Qed.

Lemma missing_spec (ns name : string) (store : gset NamespacedName) :
  missing ns name store = true <-> name <> "" /\ (ns, name) ∉ store.
Proof.
  unfold missing, referenced.
  rewrite andb_true_iff, !negb_true_iff, bool_decide_eq_false.
  destruct (String.eqb_spec name ""); intuition congruence.
Qed.

(** C5: after the health step, Healthy is false exactly when the workspace
    names a secret or a service account that does not exist; a workspace that
    names neither is healthy. *)
Theorem healthy_iff_references_resolve (now : Z) (ws : Workspace) (c : Cluster) :
  (healthy (reconcileHealth now ws c) = Some ConditionFalse <->
   (SecretName (Spec ws) <> "" /\ (Namespace ws, SecretName (Spec ws)) ∉ secrets c)
   \/ (ServiceAccountName (Spec ws) <> ""
       /\ (Namespace ws, ServiceAccountName (Spec ws)) ∉ serviceAccounts c))
  /\ (healthy (reconcileHealth now ws c) = Some ConditionFalse
      \/ healthy (reconcileHealth now ws c) = Some ConditionTrue)
  /\ healthy (reconcileHealth now (workspaceReferencing "" "") c) = Some ConditionTrue
  /\ healthy (reconcileHealth now (workspaceReferencing "stok" "") emptyCluster)
     = Some ConditionFalse.
Proof.
  assert (Hset : healthy (reconcileHealth now ws c) = Some (healthStatus ws c)).
  { unfold healthy, reconcileHealth. cbn.
    exact (GetCondition_SetCondition _
             {| cond_Type := ConditionHealthy; cond_Status := healthStatus ws c;
                cond_LastTransitionTime := now |}). }
  rewrite Hset. unfold healthStatus.
  split; [|split; [|split]].
  - rewrite <- !missing_spec.
    destruct (missing _ (SecretName _) _), (missing _ (ServiceAccountName _) _); cbn;
      intuition congruence.
  - destruct (_ || _); auto.
  - reflexivity.
  - reflexivity.
Qed.

End HealthCondition.

(** * Further properties of the workspace controller *)

Section ReconcilerBehaviour.
Import Reconciler Fixtures ControllerSetup.

Ltac run_pass :=
  unfold Reconcile, bind, doGetWorkspace, doGetPVC, doCreate, doList, doStatusUpdate, ret.

(** X1: when the workspace cannot be read, the pass ends there: a workspace
    that is not found (it was deleted) is no error, any other failure is
    returned as it is; nothing else is called and the cluster is untouched. *)
Theorem Reconcile_workspace_read_failed {St : Type} (r : ReconcileWorkspace St)
    (request : NamespacedName) (st : St) (e : APIError) :
  GetWorkspace (client r) request st = inl e ->
  Reconcile r request st =
    ((emptyResult, if IsNotFound e then None else Some e), st, [CallGetWorkspace request]).
Proof.
  intros Hget. run_pass. rewrite Hget. destruct (IsNotFound e); reflexivity.
Qed.

Lemma Reconcile_workspace_read_failed_witness :
  Reconcile reconciler ("default", "gone") (fresh [plan1]) =
    ((emptyResult, None), fresh [plan1], [CallGetWorkspace ("default", "gone")])
  /\ Reconcile (reconcilerOver (failingWith (OtherError "timeout"))) request1 (fresh [plan1]) =
       ((emptyResult, Some (OtherError "timeout")), fresh [plan1],
        [CallGetWorkspace request1]).
Proof.
  split.
  - apply (Reconcile_workspace_read_failed reconciler ("default", "gone") (fresh [plan1])
             NotFound). reflexivity.
  - apply (Reconcile_workspace_read_failed (reconcilerOver (failingWith (OtherError "timeout")))
             request1 (fresh [plan1]) (OtherError "timeout")). reflexivity.
Defined.

(** X2: when reading the claim fails with anything but not-found, the pass
    returns that error and creates nothing: its calls are the two reads. *)
Theorem Reconcile_claim_read_failed {St : Type} (r : ReconcileWorkspace St)
    (request : NamespacedName) (st : St) (instance : Workspace)
    (pvc : PersistentVolumeClaim) (e : APIError) :
  GetWorkspace (client r) request st = inr instance ->
  SetControllerReference instance (newPVCForCR instance) (scheme r) = inr pvc ->
  GetPVC (client r) (pvc_Key pvc) st = inl e ->
  IsNotFound e = false ->
  Reconcile r request st =
    ((emptyResult, Some e), st, [CallGetWorkspace request; CallGetPVC (pvc_Key pvc)]).
Proof.
  intros Hget Hown Hpvc Hother. run_pass.
  rewrite Hget, Hown. unfold pvc_Key in Hpvc. rewrite Hpvc, Hother. reflexivity.
Qed.

Lemma Reconcile_claim_read_failed_witness :
  Reconcile (reconcilerOver (withGetPVC (fun _ _ => inl (OtherError "timeout"))))
    request1 (fresh [plan1]) =
    ((emptyResult, Some (OtherError "timeout")), fresh [plan1],
     [CallGetWorkspace request1; CallGetPVC (pvc_Key claim1)]).
Proof.
  apply (Reconcile_claim_read_failed
           (reconcilerOver (withGetPVC (fun _ _ => inl (OtherError "timeout"))))
           request1 (fresh [plan1]) workspace1 claim1 (OtherError "timeout"));
    reflexivity.
Defined.

(** X3: when listing the commands fails, the pass returns that error and
    writes no status. *)
Theorem Reconcile_list_failed {St : Type} (r : ReconcileWorkspace St)
    (request : NamespacedName) (st : St) (instance : Workspace)
    (pvc found : PersistentVolumeClaim) (e : APIError) :
  GetWorkspace (client r) request st = inr instance ->
  SetControllerReference instance (newPVCForCR instance) (scheme r) = inr pvc ->
  GetPVC (client r) (pvc_Key pvc) st = inr found ->
  List (client r) (fst request) st = inl e ->
  Reconcile r request st =
    ((emptyResult, Some e), st,
     [CallGetWorkspace request; CallGetPVC (pvc_Key pvc); CallList (fst request)]).
Proof.
  intros Hget Hown Hpvc Hlist. run_pass.
  rewrite Hget, Hown. unfold pvc_Key in Hpvc. rewrite Hpvc, Hlist. reflexivity.
Qed.

Lemma Reconcile_list_failed_witness :
  Reconcile (reconcilerOver (withList (fun _ _ => inl (OtherError "timeout"))))
    request1 (settled [] [plan1]) =
    ((emptyResult, Some (OtherError "timeout")), settled [] [plan1],
     [CallGetWorkspace request1; CallGetPVC (pvc_Key claim1); CallList "default"]).
Proof.
  apply (Reconcile_list_failed
           (reconcilerOver (withList (fun _ _ => inl (OtherError "timeout"))))
           request1 (settled [] [plan1]) workspace1 claim1 claim1 (OtherError "timeout"));
    reflexivity.
Defined.

(** X4: when no command is left in the namespace, a pass writes no status:
    every workspace keeps the status it had, so a queue naming commands that
    are gone is not emptied. *)
Theorem empty_list_keeps_queue (s : Scheme) (request : NamespacedName) (c : Cluster) :
  List.filter (inNamespace (fst request)) (commands c) = [] ->
  workspaces (after (pass s request c)) = workspaces c
  /\ List.filter isStatusUpdate (calls (pass s request c)) = [].
Proof.
  intros Hnone. unfold pass, after, calls. run_pass. simpl.
  unfold fakeGetWorkspace.
  destruct (workspaces c !! request) as [instance|]; [|split; reflexivity].
  destruct (SetControllerReference _ _ _) as [e|pvc]; [split; reflexivity|].
  unfold fakeGetPVC. destruct (pvcs c !! _) as [found|]; simpl.
  - unfold fakeList. rewrite Hnone. split; reflexivity.
  - destruct (fakeCreate_stores pvc c) as (_ & Hsame & _).
    destruct (fakeCreate pvc c) as [[e|] c']; simpl in *; split; auto.
Qed.

Lemma empty_list_keeps_queue_witness :
  queueOf request1 (after (pass registeredScheme request1 (settled ["plan-1"] [])))
  = ["plan-1"].
Proof.
  destruct (empty_list_keeps_queue registeredScheme request1 (settled ["plan-1"] []))
    as (Hsame & _); [reflexivity|].
  unfold queueOf. rewrite Hsame. reflexivity.
Defined.

(** X5: a failure of Status().Update is not reported: the pass still returns
    no error, and leaves the cluster as the refused update left it. *)
Theorem Reconcile_ignores_status_failure {St : Type} (r : ReconcileWorkspace St)
    (request : NamespacedName) (st st' : St) (instance : Workspace)
    (pvc found : PersistentVolumeClaim) (items : list Command) (e : APIError) :
  GetWorkspace (client r) request st = inr instance ->
  SetControllerReference instance (newPVCForCR instance) (scheme r) = inr pvc ->
  GetPVC (client r) (pvc_Key pvc) st = inr found ->
  List (client r) (fst request) st = inr items ->
  items <> [] ->
  StatusUpdate (client r) (withQueue instance (map cmd_Name items)) st = (Some e, st') ->
  returned (Reconcile r request st) = (emptyResult, None)
  /\ after (Reconcile r request st) = st'.
Proof.
  intros Hget Hown Hpvc Hlist Hsome Hupdate.
  rewrite (Reconcile_claim_found r request st instance pvc found items Hget Hown Hpvc Hlist).
  destruct items as [|item items]; [congruence|].
  unfold returned, after. simpl. simpl in Hupdate. rewrite Hupdate. split; reflexivity.
Qed.

Lemma Reconcile_ignores_status_failure_witness :
  returned (Reconcile
              (reconcilerOver (withStatusUpdate (fun _ c => (Some (OtherError "conflict"), c))))
              request1 (settled [] [plan1]))
  = (emptyResult, None).
Proof.
  apply (Reconcile_ignores_status_failure
           (reconcilerOver (withStatusUpdate (fun _ c => (Some (OtherError "conflict"), c))))
           request1 (settled [] [plan1]) (settled [] [plan1]) workspace1 claim1 claim1
           [plan1] (OtherError "conflict")); try reflexivity.
  discriminate.
Defined.

(** X6: whatever the cluster answers, a pass never asks to be requeued, its
    first call reads the workspace of the request, it makes at most four
    calls, and at most one of them writes (a create or a status update,
    never both). *)
Theorem Reconcile_shape {St : Type} (r : ReconcileWorkspace St)
    (request : NamespacedName) (st : St) :
  fst (returned (Reconcile r request st)) = emptyResult
  /\ hd_error (calls (Reconcile r request st)) = Some (CallGetWorkspace request)
  /\ length (calls (Reconcile r request st)) <= 4
  /\ length (List.filter isWrite (calls (Reconcile r request st))) <= 1.
Proof.
  unfold returned, calls. run_pass.
  destruct (GetWorkspace (client r) request st) as [e|instance].
  { destruct (IsNotFound e); simpl; repeat split; lia. }
  destruct (SetControllerReference _ _ _) as [e|pvc]; simpl.
  { repeat split; lia. }
  destruct (GetPVC _ _ _) as [e|found]; simpl.
  { destruct (IsNotFound e); simpl; [|repeat split; lia].
    destruct (Create _ _ _) as [[e'|] st']; simpl; repeat split; lia. }
  destruct (List _ _ _) as [e|items]; simpl; [repeat split; lia|].
  destruct (0 <? length items)%nat; simpl; [|repeat split; lia].
  destruct (StatusUpdate _ _ _) as [e st']; simpl. repeat split; lia.
Qed.

(** X7: the object a pass sends to Status().Update is the workspace it read
    with only the queue replaced: metadata and spec are the ones read. *)
Theorem status_update_keeps_object {St : Type} (r : ReconcileWorkspace St)
    (request : NamespacedName) (st : St) (w : Workspace) :
  In (CallStatusUpdate w) (calls (Reconcile r request st)) ->
  exists instance,
    GetWorkspace (client r) request st = inr instance
    /\ ws_ObjectMeta w = ws_ObjectMeta instance
    /\ ws_Spec w = ws_Spec instance.
Proof.
  intros Hin.
  destruct (Reconcile_status_update_inv r request st w Hin)
    as (instance & items & Hget & _ & _ & ->).
  exists instance. repeat split. exact Hget.
Qed.

Lemma status_update_keeps_object_witness :
  exists instance,
    fakeGetWorkspace request1 (settled ["plan-0"] [plan1]) = inr instance
    /\ ws_ObjectMeta (withQueue workspace1 ["plan-1"]) = ws_ObjectMeta instance
    /\ ws_Spec (withQueue workspace1 ["plan-1"]) = ws_Spec instance.
Proof.
  apply (status_update_keeps_object reconciler request1 (settled ["plan-0"] [plan1])
           (withQueue workspace1 ["plan-1"])).
  vm_compute. right; right; right; left. reflexivity.
Defined.

(** X8: a claim is only created after the read of that claim answered
    not-found, and the claim sent is the one synthesized for the workspace
    read, under its key, with that workspace as its one controlling owner. *)
Theorem created_claim_is_owned {St : Type} (r : ReconcileWorkspace St)
    (request : NamespacedName) (st : St) (pvc : PersistentVolumeClaim) :
  In (CallCreate pvc) (calls (Reconcile r request st)) ->
  exists instance e,
    GetWorkspace (client r) request st = inr instance
    /\ GetPVC (client r) (pvc_Key pvc) st = inl e /\ IsNotFound e = true
    /\ pvc_Key pvc = (ws_Namespace instance, ws_Name instance +:+ "-pvc")
    /\ pvc_Spec pvc = pvc_Spec (newPVCForCR instance)
    /\ OwnerReferences (pvc_ObjectMeta pvc)
       = [{| or_Kind := "Workspace"; or_Name := ws_Name instance;
             or_Controller := true; or_BlockOwnerDeletion := true |}].
Proof.
  unfold calls. run_pass.
  destruct (GetWorkspace (client r) request st) as [e|instance] eqn:Hget.
  { destruct (IsNotFound e); simpl; intros [H|[]]; discriminate. }
  destruct (SetControllerReference _ _ _) as [e|claim] eqn:Hown; simpl.
  { intros [H|[]]; discriminate. }
  destruct (GetPVC _ _ _) as [e|found] eqn:Hpvc; simpl.
  - destruct (IsNotFound e) eqn:Hnf; simpl.
    + destruct (Create _ _ _) as [[e'|] st']; simpl;
        intros [H|[H|[H|[]]]]; try discriminate;
        injection H as <-; exists instance, e;
        pose proof (SetControllerReference_keeps_key _ _ _ _ Hown) as Hkey;
        (split; [reflexivity|]); (split; [exact Hpvc|]); (split; [exact Hnf|]);
        (split; [rewrite Hkey; reflexivity|]);
        unfold SetControllerReference in Hown;
        destruct (kindRegistered (scheme r) "Workspace"); try discriminate;
        simpl in Hown; injection Hown as <-; split; reflexivity.
    + intros [H|[H|[]]]; discriminate.
  - destruct (List _ _ _) as [e|items]; simpl.
    { intros [H|[H|[H|[]]]]; discriminate. }
    destruct (0 <? length items)%nat; simpl.
    + destruct (StatusUpdate _ _ _) as [e st']; simpl.
      intros [H|[H|[H|[H|[]]]]]; discriminate.
    + intros [H|[H|[H|[]]]]; discriminate.
Qed.

Lemma created_claim_is_owned_witness :
  exists instance e,
    fakeGetWorkspace request1 (fresh [plan1]) = inr instance
    /\ fakeGetPVC (pvc_Key claim1) (fresh [plan1]) = inl e /\ IsNotFound e = true
    /\ pvc_Key claim1 = (ws_Namespace instance, ws_Name instance +:+ "-pvc")
    /\ pvc_Spec claim1 = pvc_Spec (newPVCForCR instance)
    /\ OwnerReferences (pvc_ObjectMeta claim1)
       = [{| or_Kind := "Workspace"; or_Name := ws_Name instance;
             or_Controller := true; or_BlockOwnerDeletion := true |}].
Proof.
  apply (created_claim_is_owned reconciler request1 (fresh [plan1]) claim1).
  vm_compute. right; right; left. reflexivity.
Defined.

(** X9: the claim synthesized for a workspace depends on the name and the
    namespace of the workspace only: the cache spec is not read, so the claim
    names no storage class and requests 1Gi whatever storage class and size
    the workspace asks for; it is read-write-once and labelled app with the
    workspace name. *)
Theorem claim_ignores_cache_spec (cr cr' : Workspace) :
  ws_Name cr = ws_Name cr' ->
  ws_Namespace cr = ws_Namespace cr' ->
  newPVCForCR cr = newPVCForCR cr'
  /\ StorageClassName (pvc_Spec (newPVCForCR cr)) = None
  /\ storageRequest (newPVCForCR cr) = Some "1Gi"
  /\ AccessModes (pvc_Spec (newPVCForCR cr)) = [ReadWriteOnce]
  /\ Labels (pvc_ObjectMeta (newPVCForCR cr)) !! "app" = Some (ws_Name cr).
Proof.
  intros Hname Hns. unfold newPVCForCR. rewrite Hname, Hns.
  repeat split.
Qed.

Lemma claim_ignores_cache_spec_witness :
  newPVCForCR (workspaceWithCache "fast" "5Gi") = newPVCForCR workspace1
  /\ StorageClassName (pvc_Spec (newPVCForCR (workspaceWithCache "fast" "5Gi"))) = None
  /\ storageRequest (newPVCForCR (workspaceWithCache "fast" "5Gi")) = Some "1Gi".
Proof.
  destruct (claim_ignores_cache_spec (workspaceWithCache "fast" "5Gi") workspace1)
    as (Hsame & Hclass & Hsize & _); [reflexivity|reflexivity|].
  repeat split; assumption.
Defined.

End ReconcilerBehaviour.

Section ControllerWiring.
Import Reconciler Fixtures ControllerSetup.



(** X10: the request that the watch on commands derives from a command names
    the workspace of the command's spec in the command's namespace; when that
    workspace and its claim exist, the pass for that request writes a queue
    that holds the name of the command. *)
Theorem command_event_queues_command (s : Scheme) (c : Cluster) (cmd : Command)
    (request : NamespacedName) (instance : Workspace)
    (pvc found : PersistentVolumeClaim) :
  In cmd (commands c) ->
  In request (commandToRequests cmd) ->
  workspaces c !! request = Some instance ->
  SetControllerReference instance (newPVCForCR instance) s = inr pvc ->
  pvcs c !! pvc_Key pvc = Some found ->
  request = (cmd_Namespace cmd, cmd_Workspace (cmd_Spec cmd))
  /\ exists w,
       In (CallStatusUpdate w) (calls (pass s request c))
       /\ In (cmd_Name cmd) (Queue (ws_Status w)).
Proof.
  intros Hcmd [Hreq|[]] Hws Hown Hpvc. split; [now symmetry|].
  rewrite (pass_claim_found s request c instance pvc found Hws Hown Hpvc).
  assert (Hlisted : In cmd (List.filter (inNamespace (fst request)) (commands c))).
  { apply filter_In. split; [exact Hcmd|].
    subst request. unfold inNamespace. simpl.
    rewrite String.eqb_refl. apply orb_true_r. }
  destruct (List.filter (inNamespace (fst request)) (commands c)) as [|item items] eqn:Hitems;
    [destruct Hlisted|].
  exists (withQueue instance (map cmd_Name (item :: items))).
  unfold calls. simpl. split.
  - right; right; right; left. reflexivity.
  - destruct Hlisted as [->|Hlater]; [left; reflexivity|].
    right. apply in_map. exact Hlater.
Qed.

Lemma command_event_queues_command_witness :
  exists w,
    In (CallStatusUpdate w) (calls (pass registeredScheme request1 (settled [] [plan1; plan2])))
    /\ In "plan-2" (Queue (ws_Status w)).
Proof.
  destruct (command_event_queues_command registeredScheme (settled [] [plan1; plan2]) plan2
              request1 workspace1 claim1 claim1) as (_ & Hqueued);
    try reflexivity.
  - right; left; reflexivity.
  - left; reflexivity.
  - exact Hqueued.
Defined.

(** X11: setting the controller up succeeds exactly when the controller can
    be made and each of the three kinds can be watched; the watches are
    registered in the order workspace, claim, command, none after the first
    refusal, and all three exactly on success. *)
Theorem add_registers_watches_in_order {St : Type} (mgr : Manager St)
    (r : ReconcileWorkspace St) :
  (fst (add mgr r) = None <->
   controllerNew mgr "workspace-controller" = None /\ forall k, watch mgr k = None)
  /\ snd (add mgr r) `prefix_of` [workspaceWatch; claimWatch; commandWatch]
  /\ (fst (add mgr r) = None <->
      snd (add mgr r) = [workspaceWatch; claimWatch; commandWatch])
  /\ (controllerNew mgr "workspace-controller" <> None -> snd (add mgr r) = []).
Proof.
  unfold add.
  destruct (controllerNew mgr "workspace-controller") as [e0|];
    [|destruct (watch mgr WatchWorkspace) as [e1|] eqn:H1;
      [|destruct (watch mgr WatchPersistentVolumeClaim) as [e2|] eqn:H2;
        [|destruct (watch mgr WatchCommand) as [e3|] eqn:H3]]]; simpl.
  all: repeat split; try discriminate; try congruence.
  all: try (intros [Hnew Hall];
            pose proof (Hall WatchWorkspace);
            pose proof (Hall WatchPersistentVolumeClaim);
            pose proof (Hall WatchCommand); congruence).
  all: try (eexists; reflexivity).
  all: try (intros [| |]; assumption).
  all: try (intros Habs; exfalso; apply Habs; reflexivity).
Qed.

Example Add_without_command_kind :
  Add managerWithoutCommands
  = (Some (OtherError "no matches for kind Command"), [workspaceWatch; claimWatch]).
Proof. reflexivity. Qed.



End ControllerWiring.

(** * Further properties of the workspace-creation command *)

Section CommandBehaviour.
Import V1alpha1 WorkspaceNew CommandTrace.

Context {St : Type} (f : Collaborators St).

Ltac split_run :=
  unfold run, createServiceAccountIfMissing, createSecretIfMissing, createWorkspace,
    createServiceAccount, createSecret, attach, collaborate, perform, observe, modify,
    options, bind, ret, finalOptions, returned, calls;
  repeat (cbn -[waitersFor];
          match goal with
          | |- context [match ?x with _ => _ end] =>
              lazymatch x with
              | context [match _ with _ => _ end] => fail
              | _ => destruct x eqn:?
              end
          end).

Ltac in_trace H :=
  cbn in H;
  repeat match type of H with
         | _ \/ _ => destruct H as [H|H]
         | False => destruct H
         end.


(** Every create of a secret or of a service account follows a read of the
    same name that answered not-found. *)
Lemma run_reads_before_create (o : newOptions) (st : St) (c : Call)
    (k : Kind) (ns name : string) :
  In c (calls (run f (o, st))) ->
  readBefore c = Some (k, ns, name) ->
  exists e, IsNotFound e = true /\ In (CallGet k ns name (Some e)) (calls (run f (o, st))).
Proof.
  destruct o. split_run; intros Hin Hread; in_trace Hin; subst c;
    try discriminate Hread; cbn in Hread; injection Hread as <- <- <-;
    match goal with
    | Hnf : IsNotFound ?a = true |- _ =>
        exists a; split; [exact Hnf|]; cbn; solve [auto 10]
    end.
Qed.

(** The workspace run sends is built from the options. *)
Lemma run_workspace_built (o : newOptions) (st : St)
    (ns : string) (w : Workspace) (res : option APIError) :
  In (CallCreateWorkspace ns w res) (calls (run f (o, st))) ->
  ns = namespace o
  /\ Name w = workspace o
  /\ Namespace w = namespace o
  /\ Labels w = objectLabels f (workspace o)
  /\ Variables (Spec w)
     = Variables (workspaceSpec o) ++ variablesOf (variables o) false
       ++ variablesOf (environmentVariables o) true
  /\ Verbosity (Spec w) = Verbosity_ f
  /\ SecretName (Spec w) = SecretName (workspaceSpec o)
  /\ ServiceAccountName (Spec w) = ServiceAccountName (workspaceSpec o)
  /\ Status w = default emptyStatus (status o).
Proof.
  destruct o. split_run; intros Hin; in_trace Hin; try discriminate Hin;
    injection Hin as <- <- <-; repeat split.
Qed.

(** With the flag that disables it, run makes no call about a kind and
    leaves its created flag down. *)
Lemma run_disabled_untouched (o : newOptions) (st : St) (k : Kind) :
  unflagged o ->
  match k with
  | ServiceAccountKind => disableCreateServiceAccount o = true
  | SecretKind => disableCreateSecret o = true
  | WorkspaceKind => False
  end ->
  (forall c, In c (calls (run f (o, st))) -> concerns k c = false)
  /\ (forall r, In r (flagged (finalOptions (run f (o, st)))) -> kindOf r <> k).
Proof.
  intros (Hw & Hsa & Hsecret) Hoff.
  destruct o; cbn in Hw, Hsa, Hsecret; subst.
  destruct k; cbn in Hoff; [subst|subst|destruct Hoff];
    unfold flagged; split_run; split;
    try (intros c Hin; in_trace Hin; subst c; reflexivity);
    intros r Hin; in_trace Hin; subst r; discriminate.
Qed.

(** What cleanup calls: deletes of flagged resources only. *)
Lemma cleanup_calls (o : newOptions) (st : St) (c : Call) :
  In c (calls (cleanup f (o, st))) ->
  exists k ns name res, c = CallDelete k ns name res /\ In (k, ns, name) (flagged o).
Proof.
  unfold cleanup, deleteResource, perform, options, bind, ret, calls, flagged. cbn.
  destruct (createdWorkspace o), (createdSecret o), (createdServiceAccount o); cbn;
    repeat match goal with
           | |- context [Delete f ?k ?ns ?n ?s] => destruct (Delete f k ns n s)
           end; cbn; intros Hin; in_trace Hin; subst c;
    do 4 eexists; (split; [reflexivity|]); cbn; auto 10.
Qed.

(** An invocation that gets past its checks is run followed, on failure and
    unless disabled, by cleanup. *)
Lemma Execute_reaches_run (fl : Flags) (name : string) (st : St) :
  envNew f (default defaultNamespace (flag_namespace fl)) name = None ->
  factoryCreate f (default "" (flag_context fl)) st = None ->
  Execute f fl [name] st =
    (let '(err, s2, t2) := run f (runOptions fl name, st) in
     let '(_, s3, t3) :=
       match err with
       | Some _ =>
           if negb (default false (flag_no_cleanup fl)) then cleanup f s2
           else (tt, s2, [])
       | None => (tt, s2, [])
       end in
     (err, s3, t2 ++ t3)).
Proof.
  intros Henv Hfactory.
  unfold Execute, RunE, runOptions, bind, modify, options, observe, ret.
  cbn -[run cleanup]. rewrite Henv.
  destruct (negb (IsFlagPassed (flag_storage_class fl))); cbn -[run cleanup];
    rewrite Hfactory;
    destruct (run f _) as [[err s2] t2]; cbn -[cleanup];
    destruct err; cbn -[cleanup]; rewrite ?app_nil_r; try reflexivity;
    destruct (negb (default false (flag_no_cleanup fl))); cbn -[cleanup];
    rewrite ?app_nil_r; try reflexivity;
    destruct (cleanup f s2) as [[u s3] t3]; rewrite ?app_nil_r; reflexivity.
Qed.

Lemma runOptions_fresh (fl : Flags) (name : string) :
  unflagged (runOptions fl name)
  /\ namespace (runOptions fl name) = default defaultNamespace (flag_namespace fl)
  /\ workspace (runOptions fl name) = name
  /\ disableCreateSecret (runOptions fl name) = default false (flag_no_create_secret fl)
  /\ disableCreateServiceAccount (runOptions fl name)
     = default false (flag_no_create_service_account fl)
  /\ variables (runOptions fl name) = default ∅ (flag_variables fl)
  /\ environmentVariables (runOptions fl name) = default ∅ (flag_environment_variables fl)
  /\ Variables (workspaceSpec (runOptions fl name)) = []
  /\ SecretName (workspaceSpec (runOptions fl name)) = default defaultSecretName (flag_secret fl)
  /\ ServiceAccountName (workspaceSpec (runOptions fl name))
     = default defaultServiceAccountName (flag_service_account fl)
  /\ status (runOptions fl name) = None.
Proof.
  unfold runOptions. destruct (negb _); repeat split.
Qed.

(** The trace of an invocation: the calls of run, then deletes of resources
    that run flagged as created. *)
Lemma Execute_trace (fl : Flags) (args : list string) (st : St) :
  (calls (Execute f fl args st) = [] /\ returned (Execute f fl args st) <> None)
  \/ exists name t3,
       args = [name]
       /\ returned (Execute f fl args st) = returned (run f (runOptions fl name, st))
       /\ calls (Execute f fl args st) = calls (run f (runOptions fl name, st)) ++ t3
       /\ (returned (run f (runOptions fl name, st)) = None -> t3 = [])
       /\ (forall c, In c t3 ->
             exists k ns n res,
               c = CallDelete k ns n res
               /\ In (k, ns, n) (flagged (finalOptions (run f (runOptions fl name, st))))).
Proof.
  destruct args as [|name [|another rest]].
  { left. split; [reflexivity|discriminate]. }
  2:{ left. split; [reflexivity|discriminate]. }
  destruct (envNew f (default defaultNamespace (flag_namespace fl)) name) as [err|] eqn:Henv.
  { left. unfold Execute, RunE, bind, modify, options, observe, ret, calls, returned.
    cbn -[run cleanup]. rewrite Henv. split; [reflexivity|discriminate]. }
  destruct (factoryCreate f (default "" (flag_context fl)) st) as [err|] eqn:Hfactory.
  { left. unfold Execute, RunE, bind, modify, options, observe, ret, calls, returned.
    cbn -[run cleanup]. rewrite Henv.
    destruct (negb (IsFlagPassed (flag_storage_class fl))); cbn -[run cleanup];
      rewrite Hfactory; (split; [reflexivity|discriminate]). }
  right. exists name. rewrite (Execute_reaches_run fl name st Henv Hfactory).
  destruct (run f (runOptions fl name, st)) as [[err [o2 st2]] t2].
  unfold returned, calls, finalOptions. cbn -[cleanup].
  destruct err as [e|].
  - destruct (negb (default false (flag_no_cleanup fl))).
    + pose proof (cleanup_calls o2 st2) as Hdeletes.
      destruct (cleanup f (o2, st2)) as [[u s3] t3]. unfold calls in Hdeletes. cbn in *.
      exists t3. do 3 (split; [reflexivity|]).
      split; [discriminate|exact Hdeletes].
    + exists []. do 3 (split; [reflexivity|]).
      split; [reflexivity|intros c []].
  - exists []. do 3 (split; [reflexivity|]).
    split; [reflexivity|intros c []].
Qed.

(** X13: called with no workspace name or with more than one argument, the
    command fails with the error that asks for a single name, before anything
    is read or created: no call is made and the world is left as it was. *)
Theorem Execute_wrong_arguments (fl : Flags) (args : list string) (st : St) :
  length args <> 1 ->
  Execute f fl args st = (Some errWorkspaceNameArg, (newCmd fl, st), []).
Proof.
  intros Hargs. destruct args as [|name [|another rest]]; try reflexivity.
  contradiction Hargs. reflexivity.
Qed.


(** X15: the command creates a secret or a service account only after it
    has looked for one of that name in that namespace and was answered
    not-found: it never creates over one it found, nor after a read that
    failed otherwise. *)
Theorem creates_only_what_is_missing (fl : Flags) (args : list string) (st : St)
    (c : Call) (k : Kind) (ns name : string) :
  In c (calls (Execute f fl args st)) ->
  readBefore c = Some (k, ns, name) ->
  exists e,
    IsNotFound e = true
    /\ In (CallGet k ns name (Some e)) (calls (Execute f fl args st)).
Proof.
  intros Hin Hread.
  destruct (Execute_trace fl args st)
    as [(Hnone & _)|(arg & t3 & -> & _ & Hcalls & _ & Hdeletes)].
  { rewrite Hnone in Hin. destruct Hin. }
  rewrite Hcalls in *. apply in_app_or in Hin. destruct Hin as [Hin|Hin].
  - destruct (run_reads_before_create _ st c k ns name Hin Hread) as (e & Hnf & Hget).
    exists e. split; [exact Hnf|]. apply in_or_app. left. exact Hget.
  - destruct (Hdeletes c Hin) as (k' & ns' & n' & res & -> & _). discriminate Hread.
Qed.

(** X16: with the flag that disables the creation of secrets (or of service
    accounts) the command makes no call about that kind at all: it does not
    look for one, create one, or delete one on failure. *)
Theorem disabled_kind_untouched (fl : Flags) (args : list string) (st : St)
    (k : Kind) (c : Call) :
  creationDisabled fl k = true ->
  In c (calls (Execute f fl args st)) ->
  concerns k c = false.
Proof.
  intros Hoff Hin.
  destruct (Execute_trace fl args st)
    as [(Hnone & _)|(arg & t3 & -> & _ & Hcalls & _ & Hdeletes)].
  { rewrite Hnone in Hin. destruct Hin. }
  destruct (runOptions_fresh fl arg) as (Hfresh & _ & _ & Hsecret & Hsa & _).
  assert (Hdisabled :
            match k with
            | ServiceAccountKind => disableCreateServiceAccount (runOptions fl arg) = true
            | SecretKind => disableCreateSecret (runOptions fl arg) = true
            | WorkspaceKind => False
            end).
  { destruct k; cbn in Hoff; [rewrite Hsa|rewrite Hsecret|]; congruence. }
  destruct (run_disabled_untouched (runOptions fl arg) st k Hfresh Hdisabled)
    as (Hquiet & Hflags).
  rewrite Hcalls in Hin. apply in_app_or in Hin. destruct Hin as [Hin|Hin].
  - apply Hquiet. exact Hin.
  - destruct (Hdeletes c Hin) as (k' & ns' & n' & res & -> & Hflagged).
    specialize (Hflags _ Hflagged). unfold concerns, kindOf in *. cbn in *.
    destruct k, k'; try reflexivity; contradiction Hflags; reflexivity.
Qed.


(** X18: the workspace that an invocation sends to the cluster has the name
    given as argument, is created in its own namespace, the one of the flags,
    names the secret and the service account of the flags, and holds exactly
    the variables of the command line: those of the variables flag as
    terraform variables, those of the environment-variables flag as
    environment variables. *)
Theorem workspace_sent_from_command_line (fl : Flags) (args : list string) (st : St)
    (ns : string) (w : Workspace) (res : option APIError) :
  In (CallCreateWorkspace ns w res) (calls (Execute f fl args st)) ->
  args = [Name w]
  /\ ns = Namespace w
  /\ Namespace w = default defaultNamespace (flag_namespace fl)
  /\ SecretName (Spec w) = default defaultSecretName (flag_secret fl)
  /\ ServiceAccountName (Spec w) = default defaultServiceAccountName (flag_service_account fl)
  /\ Verbosity (Spec w) = Verbosity_ f
  /\ (forall k v isEnv,
        In {| Key := k; Value := v; EnvironmentVariable := isEnv |} (Variables (Spec w))
        <-> (if isEnv then default ∅ (flag_environment_variables fl)
             else default ∅ (flag_variables fl)) !! k = Some v).
Proof.
  intros Hin.
  destruct (Execute_trace fl args st)
    as [(Hnone & _)|(arg & t3 & -> & _ & Hcalls & _ & Hdeletes)].
  { rewrite Hnone in Hin. destruct Hin. }
  rewrite Hcalls in Hin. apply in_app_or in Hin. destruct Hin as [Hin|Hin].
  2:{ destruct (Hdeletes _ Hin) as (k' & ns' & n' & res' & Habs & _). discriminate Habs. }
  destruct (runOptions_fresh fl arg)
    as (_ & Hns & Hname & _ & _ & Hvars & Henvs & Hnone & Hsecret & Hsa & _).
  destruct (run_workspace_built (runOptions fl arg) st ns w res Hin)
    as (-> & Hn & Hnsw & _ & Hv & Hverb & Hs & Ha & _).
  rewrite Hn, Hnsw, Hs, Ha, Hv, Hverb, Hname, Hns, Hsecret, Hsa, Hnone, Hvars, Henvs.
  do 6 (split; [reflexivity|]).
  intros k v isEnv. cbn [app]. rewrite in_app_iff. unfold variablesOf.
  rewrite !in_map_iff. split.
  - intros [((k' & v') & Heq & Hkv)|((k' & v') & Heq & Hkv)];
      injection Heq as <- <- <-; cbn;
      apply list_elem_of_In in Hkv; now apply elem_of_map_to_list in Hkv.
  - destruct isEnv; intros Hkv; apply elem_of_map_to_list in Hkv;
      apply list_elem_of_In in Hkv; [right|left]; exists (k, v); split; auto.
Qed.

(** X19: when the environment file cannot be set up for the workspace, or
    the client cannot be made, the command returns that error as it is and
    has called nothing. *)
Theorem setup_failure_returned (fl : Flags) (name : string) (st : St) (err : error) :
  envNew f (default defaultNamespace (flag_namespace fl)) name = Some err
  \/ (envNew f (default defaultNamespace (flag_namespace fl)) name = None
      /\ factoryCreate f (default "" (flag_context fl)) st = Some err) ->
  returned (Execute f fl [name] st) = Some err
  /\ calls (Execute f fl [name] st) = []
  /\ snd (snd (fst (Execute f fl [name] st))) = st.
Proof.
  unfold Execute, RunE, bind, modify, options, observe, ret, calls, returned.
  cbn -[run cleanup].
  intros [Henv|(Henv & Hfactory)]; rewrite Henv; [repeat split|].
  destruct (negb (IsFlagPassed (flag_storage_class fl))); cbn -[run cleanup];
    rewrite Hfactory; repeat split.
Qed.

End CommandBehaviour.

Section CommandBehaviourExamples.
Import V1alpha1 WorkspaceNew CommandTrace.

Lemma Execute_wrong_arguments_witness :
  Execute FakeWorld.collaborators noFlags ["foo"; "bar"] FakeWorld.emptyNoOperator
  = (Some errWorkspaceNameArg, (newCmd noFlags, FakeWorld.emptyNoOperator), []).
Proof.
  apply (Execute_wrong_arguments FakeWorld.collaborators noFlags ["foo"; "bar"]
           FakeWorld.emptyNoOperator).
  discriminate.
Defined.


Lemma creates_only_what_is_missing_witness :
  exists e,
    IsNotFound e = true
    /\ In (CallGet ServiceAccountKind "default" "etok" (Some e))
          (calls (Execute FakeWorld.collaborators noFlags ["foo"] FakeWorld.secretOnly)).
Proof.
  apply (creates_only_what_is_missing FakeWorld.collaborators noFlags ["foo"]
           FakeWorld.secretOnly
           (CallCreateServiceAccount "default" etokServiceAccount None)).
  - vm_compute. right; left. reflexivity.
  - reflexivity.
Defined.

Lemma disabled_kind_untouched_witness :
  concerns SecretKind (CallGet ServiceAccountKind "default" "etok" (Some NotFound)) = false.
Proof.
  apply (disabled_kind_untouched FakeWorld.collaborators flagsNoSecret ["foo"]
           FakeWorld.emptyNoOperator).
  - reflexivity.
  - vm_compute. left. reflexivity.
Defined.


Lemma workspace_sent_from_command_line_witness :
  ["foo"] = [Name fooWithVariables]
  /\ "default" = Namespace fooWithVariables.
Proof.
  destruct (workspace_sent_from_command_line FakeWorld.collaborators flagsNoSecret ["foo"]
              emptyReady "default" fooWithVariables None) as (Hname & Hns & _).
  - vm_compute. right; right; left. reflexivity.
  - split; assumption.
Defined.

Lemma setup_failure_returned_witness :
  returned (Execute withoutEnvironment noFlags ["foo"] emptyReady)
  = Some (errorString "invalid workspace name")
  /\ calls (Execute withoutEnvironment noFlags ["foo"] emptyReady) = [].
Proof.
  destruct (setup_failure_returned withoutEnvironment noFlags "foo" emptyReady
              (errorString "invalid workspace name")) as (Hret & Hcalls & _).
  - left. reflexivity.
  - split; assumption.
Defined.

End CommandBehaviourExamples.

(** * Properties of the fake client creator *)

Section FakeClients.
Import FakeClientCreator.

Context {Reaction WatchReaction : Type}.

Abbreviation Creator := (FakeClientCreator Reaction WatchReaction).
Abbreviation FakeSet := (Clientset Reaction WatchReaction).

Lemma splitObjects_from (objects kube stok : list Object) :
  fold_left (fun lists obj =>
               match obj_Type obj with
               | RunType | WorkspaceType => (fst lists, snd lists ++ [obj])
               | OtherType _ => (fst lists ++ [obj], snd lists)
               end)
            objects (kube, stok)
  = (kube ++ List.filter (fun obj => negb (isStokObject obj)) objects,
     stok ++ List.filter isStokObject objects).
Proof.
  revert kube stok. induction objects as [|obj objects IH]; intros kube stok; simpl.
  - now rewrite !app_nil_r.
  - destruct (obj_Type obj) eqn:Htype; rewrite IH; unfold isStokObject;
      rewrite Htype; simpl; rewrite <- ?app_assoc; reflexivity.
Qed.

Lemma filter_split_Permutation (objects : list Object) :
  List.filter (fun obj => negb (isStokObject obj)) objects
  ++ List.filter isStokObject objects ≡ₚ objects.
Proof.
  induction objects as [|obj objects IH]; simpl; [reflexivity|].
  destruct (isStokObject obj); simpl.
  - rewrite <- Permutation_middle. now rewrite IH.
  - now rewrite IH.
Qed.

Lemma prepend_reactors (rs : list (SimpleReactor Reaction)) (c : FakeSet) :
  ReactionChain (fold_left (fun c r => PrependReactor r c) rs c)
  = map Simple (rev rs) ++ ReactionChain c
  /\ WatchReactionChain (fold_left (fun c r => PrependReactor r c) rs c)
     = WatchReactionChain c
  /\ tracker (fold_left (fun c r => PrependReactor r c) rs c) = tracker c.
Proof.
  revert c. induction rs as [|r rs IH]; intros c; simpl; [auto|].
  destruct (IH (PrependReactor r c)) as (-> & -> & ->).
  rewrite map_app, <- app_assoc. auto.
Qed.

Lemma prepend_watch_reactors (rs : list (SimpleWatchReactor WatchReaction)) (c : FakeSet) :
  WatchReactionChain (fold_left (fun c r => PrependWatchReactor r c) rs c)
  = map SimpleWatch (rev rs) ++ WatchReactionChain c
  /\ ReactionChain (fold_left (fun c r => PrependWatchReactor r c) rs c)
     = ReactionChain c
  /\ tracker (fold_left (fun c r => PrependWatchReactor r c) rs c) = tracker c.
Proof.
  revert c. induction rs as [|r rs IH]; intros c; simpl; [auto|].
  destruct (IH (PrependWatchReactor r c)) as (-> & -> & ->).
  rewrite map_app, <- app_assoc. auto.
Qed.

(** What Create builds, client by client. *)
Lemma Create_clients (f : Creator) (kubeCtx : string) :
  snd (Create f kubeCtx) = None
  /\ tracker (KubeClient (fst (Create f kubeCtx)))
     = List.filter (fun obj => negb (isStokObject obj)) (objs f)
  /\ tracker (StokClient (fst (Create f kubeCtx))) = List.filter isStokObject (objs f)
  /\ ReactionChain (KubeClient (fst (Create f kubeCtx)))
     = map Simple (rev (kubeReactors f)) ++ [ObjectTracker]
  /\ ReactionChain (StokClient (fst (Create f kubeCtx)))
     = map Simple (rev (stokReactors f)) ++ [ObjectTracker]
  /\ WatchReactionChain (KubeClient (fst (Create f kubeCtx)))
     = map SimpleWatch (rev (kubeWatchReactors f)) ++ [TrackerWatch]
  /\ WatchReactionChain (StokClient (fst (Create f kubeCtx)))
     = map SimpleWatch (rev (stokWatchReactors f)) ++ [TrackerWatch].
Proof.
  unfold Create, splitObjects. rewrite splitObjects_from. simpl.
  repeat match goal with
         | |- context [fold_left (fun set r => PrependWatchReactor r set) ?rs ?start] =>
             destruct (prepend_watch_reactors rs start) as (-> & -> & ->)
         | |- context [fold_left (fun set r => PrependReactor r set) ?rs ?start] =>
             destruct (prepend_reactors rs start) as (-> & -> & ->)
         end.
  simpl. repeat split.
Qed.

(** X20: Create hands every object to exactly one of the two fake clients,
    by its type: runs and workspaces to the stok client, everything else to
    the kube client, each list in the order the objects were given; it never
    fails, whatever the context. *)
Theorem Create_splits_objects (f : Creator) (kubeCtx : string) :
  snd (Create f kubeCtx) = None
  /\ tracker (StokClient (fst (Create f kubeCtx))) = List.filter isStokObject (objs f)
  /\ tracker (KubeClient (fst (Create f kubeCtx)))
     = List.filter (fun obj => negb (isStokObject obj)) (objs f)
  /\ tracker (KubeClient (fst (Create f kubeCtx)))
     ++ tracker (StokClient (fst (Create f kubeCtx))) ≡ₚ objs f
  /\ (forall obj, In obj (tracker (StokClient (fst (Create f kubeCtx)))) ->
                  ~ In obj (tracker (KubeClient (fst (Create f kubeCtx))))).
Proof.
  destruct (Create_clients f kubeCtx) as (Herr & Hkube & Hstok & _).
  rewrite Hkube, Hstok. repeat split; try assumption.
  - apply filter_split_Permutation.
  - intros obj Hin Hin'. apply filter_In in Hin, Hin'.
    destruct Hin as (_ & Hyes), Hin' as (_ & Hno). rewrite Hyes in Hno. discriminate.
Qed.

(** X21: a reactor registered later is consulted first: registering one more
    kube reactor puts it at the head of the kube client's chain, in front of
    all those registered before, and the object tracker stays last; reactors
    registered for the stok client never reach the kube client. *)
Theorem later_reactor_comes_first (f : Creator) (kubeCtx verb resource : string)
    (reaction : Reaction) :
  ReactionChain (KubeClient (fst (Create (PrependKubeReactor f verb resource reaction) kubeCtx)))
  = Simple {| Verb := verb; Resource := resource; Reaction_ := reaction |}
    :: ReactionChain (KubeClient (fst (Create f kubeCtx)))
  /\ ReactionChain (KubeClient (fst (Create (PrependStokReactor f verb resource reaction) kubeCtx)))
     = ReactionChain (KubeClient (fst (Create f kubeCtx)))
  /\ ReactionChain (StokClient (fst (Create (PrependStokReactor f verb resource reaction) kubeCtx)))
     = Simple {| Verb := verb; Resource := resource; Reaction_ := reaction |}
       :: ReactionChain (StokClient (fst (Create f kubeCtx)))
  /\ last (ReactionChain (KubeClient (fst (Create f kubeCtx)))) = Some ObjectTracker.
Proof.
  destruct (Create_clients f kubeCtx) as (_ & _ & _ & Hk & Hs & _).
  destruct (Create_clients (PrependKubeReactor f verb resource reaction) kubeCtx)
    as (_ & _ & _ & Hk1 & _).
  destruct (Create_clients (PrependStokReactor f verb resource reaction) kubeCtx)
    as (_ & _ & _ & Hk2 & Hs2 & _).
  rewrite Hk, Hs, Hk1, Hk2, Hs2. simpl. rewrite !rev_app_distr. simpl.
  repeat split. apply last_snoc.
Qed.

(** X22: the watch reactors follow the same rule, and the verb given to
    PrependStokWatchReactor plays no part: whatever verb is passed, the stok
    client gets the same watch chain, the new reactor at its head. *)
Theorem watch_reactor_ignores_verb (f : Creator) (kubeCtx verb verb' resource : string)
    (reaction : WatchReaction) :
  Create (PrependStokWatchReactor f verb resource reaction) kubeCtx
  = Create (PrependStokWatchReactor f verb' resource reaction) kubeCtx
  /\ WatchReactionChain
       (StokClient (fst (Create (PrependStokWatchReactor f verb resource reaction) kubeCtx)))
     = SimpleWatch {| watch_Resource := resource; watch_Reaction := reaction |}
       :: WatchReactionChain (StokClient (fst (Create f kubeCtx)))
  /\ WatchReactionChain
       (KubeClient (fst (Create (PrependKubeWatchReactor f resource reaction) kubeCtx)))
     = SimpleWatch {| watch_Resource := resource; watch_Reaction := reaction |}
       :: WatchReactionChain (KubeClient (fst (Create f kubeCtx))).
Proof.
  split; [reflexivity|].
  destruct (Create_clients f kubeCtx) as (_ & _ & _ & _ & _ & Hk & Hs).
  destruct (Create_clients (PrependStokWatchReactor f verb resource reaction) kubeCtx)
    as (_ & _ & _ & _ & _ & _ & Hs1).
  destruct (Create_clients (PrependKubeWatchReactor f resource reaction) kubeCtx)
    as (_ & _ & _ & _ & _ & Hk1 & _).
  rewrite Hk, Hs, Hs1, Hk1. simpl. rewrite !rev_app_distr. simpl. split; reflexivity.
Qed.

End FakeClients.

Section CreatedObjects.
Import V1alpha1 WorkspaceNew CommandTrace.

Context {St : Type} (f : Collaborators St).

Ltac split_built :=
  unfold run, createServiceAccountIfMissing, createSecretIfMissing, createWorkspace,
    createServiceAccount, createSecret, attach, collaborate, perform, observe, modify,
    options, bind, ret, calls;
  repeat (cbn -[waitersFor];
          match goal with
          | |- context [match ?x with _ => _ end] =>
              lazymatch x with
              | context [match _ with _ => _ end] => fail
              | _ => destruct x eqn:?
              end
          end);
  let Hin := fresh "Hin" in
  intros Hin; cbn in Hin;
  repeat match type of Hin with
         | _ \/ _ => destruct Hin as [Hin|Hin]
         | False => destruct Hin
         end; try discriminate Hin; injection Hin as <- <- <-; repeat split.

(** The secret run sends is built from the options. *)
Lemma run_secret_built (o : newOptions) (st : St)
    (ns : string) (s : Secret) (res : option APIError) :
  In (CallCreateSecret ns s res) (calls (run f (o, st))) ->
  ns = namespace o
  /\ secret_Name s = SecretName (workspaceSpec o)
  /\ secret_Labels s = objectLabels f (workspace o).
Proof. destruct o. split_built. Qed.

(** The service account run sends is built from the options. *)
Lemma run_service_account_built (o : newOptions) (st : St)
    (ns : string) (sa : ServiceAccount) (res : option APIError) :
  In (CallCreateServiceAccount ns sa res) (calls (run f (o, st))) ->
  ns = namespace o
  /\ sa_Name sa = ServiceAccountName (workspaceSpec o)
  /\ sa_Annotations sa = serviceAccountAnnotations o
  /\ sa_Labels sa = objectLabels f (workspace o).
Proof. destruct o. split_built. Qed.

(** X23: the secret and the service account an invocation creates go to the
    namespace of the flags under the names of the flags, the service account
    with the annotations of the flags, and both carry the labels that the
    workspace of that invocation carries. *)
Theorem created_objects_share_labels (fl : Flags) (args : list string) (st : St) (c : Call) :
  In c (calls (Execute f fl args st)) ->
  exists name,
    args = [name]
    /\ match c with
       | CallCreateSecret ns s _ =>
           ns = default defaultNamespace (flag_namespace fl)
           /\ secret_Name s = default defaultSecretName (flag_secret fl)
           /\ secret_Labels s = objectLabels f name
       | CallCreateServiceAccount ns sa _ =>
           ns = default defaultNamespace (flag_namespace fl)
           /\ sa_Name sa = default defaultServiceAccountName (flag_service_account fl)
           /\ sa_Annotations sa = default ∅ (flag_sa_annotations fl)
           /\ sa_Labels sa = objectLabels f name
       | CallCreateWorkspace _ w _ => Labels w = objectLabels f name
       | _ => True
       end.
Proof.
  intros Hin.
  destruct (Execute_trace f fl args st)
    as [(Hnone & _)|(name & t3 & -> & _ & Hcalls & _ & Hdeletes)].
  { rewrite Hnone in Hin. destruct Hin. }
  exists name. split; [reflexivity|].
  rewrite Hcalls in Hin. apply in_app_or in Hin. destruct Hin as [Hin|Hin].
  2:{ destruct (Hdeletes c Hin) as (k & ns & n & res & -> & _). exact I. }
  destruct (runOptions_fresh fl name)
    as (_ & Hns & Hname & _ & _ & _ & _ & _ & Hsecret & Hsa & _).
  assert (Hannotations : serviceAccountAnnotations (runOptions fl name)
                         = default ∅ (flag_sa_annotations fl))
    by (unfold runOptions; destruct (negb _); reflexivity).
  destruct c as [| ns sa res | ns s res | ns w res |]; try exact I.
  - destruct (run_service_account_built (runOptions fl name) st ns sa res Hin)
      as (-> & -> & -> & ->).
    rewrite Hns, Hsa, Hannotations, Hname. repeat split.
  - destruct (run_secret_built (runOptions fl name) st ns s res Hin) as (-> & -> & ->).
    rewrite Hns, Hsecret, Hname. repeat split.
  - destruct (run_workspace_built f (runOptions fl name) st ns w res Hin)
      as (_ & _ & _ & -> & _). now rewrite Hname.
Qed.

End CreatedObjects.

Section CreatedObjectsExamples.
Import V1alpha1 WorkspaceNew CommandTrace.

Lemma created_objects_share_labels_witness :
  exists name,
    ["foo"] = [name]
    /\ "default" = "default"
    /\ sa_Name etokServiceAccount = "etok"
    /\ sa_Annotations etokServiceAccount = ∅
    /\ sa_Labels etokServiceAccount = objectLabels FakeWorld.collaborators name.
Proof.
  apply (created_objects_share_labels FakeWorld.collaborators noFlags ["foo"]
           FakeWorld.secretOnly
           (CallCreateServiceAccount "default" etokServiceAccount None)).
  vm_compute. right; left. reflexivity.
Defined.

End CreatedObjectsExamples.

Section PassFrame.
Import Reconciler Fixtures ControllerSetup.

Lemma keeps_refl (c : Cluster) : keeps c c.
Proof.
  repeat split; [auto|]. intros k. destruct (workspaces c !! k) eqn:Hk; eauto.
Qed.

Lemma others_keep_claims (others : list PersistentVolumeClaim)
    (store : gmap NamespacedName PersistentVolumeClaim)
    (key : NamespacedName) (p : PersistentVolumeClaim) :
  store !! key = Some p ->
  fold_left (fun store q =>
               match store !! pvc_Key q with
               | Some _ => store
               | None => <[ pvc_Key q := q ]> store
               end) others store !! key = Some p.
Proof.
  revert store. induction others as [|q others IH]; intros store Hin; simpl; [exact Hin|].
  apply IH. destruct (store !! pvc_Key q) eqn:Hq; [exact Hin|].
  rewrite lookup_insert_ne; [exact Hin|]. intros Heq. rewrite Heq in Hq. congruence.
Qed.

Lemma fakeCreate_keeps (p : PersistentVolumeClaim) (c : Cluster) :
  keeps c (snd (fakeCreate p c)).
Proof.
  unfold fakeCreate, keeps.
  destruct (otherActorsCreate c !! pvc_Key p) as [q|] eqn:Hq; simpl.
  - split; [reflexivity|]. split.
    + intros k p' Hk. now apply others_keep_claims.
    + intros k. destruct (workspaces c !! k); eauto.
  - split; [reflexivity|]. split.
    + intros k p' Hk. pose proof (others_keep_claims (interference c) _ k p' Hk) as Hkept.
      fold (otherActorsCreate c) in Hkept.
      rewrite lookup_insert_ne; [exact Hkept|]. intros Heq. rewrite Heq in Hq. congruence.
    + intros k. destruct (workspaces c !! k); eauto.
Qed.

Lemma fakeStatusUpdate_keeps (w : Workspace) (c : Cluster) :
  keeps c (snd (fakeStatusUpdate w c)).
Proof.
  unfold fakeStatusUpdate.
  destruct (workspaces c !! ws_Key w) as [stored|] eqn:Hstored; simpl; [|apply keeps_refl].
  split; [reflexivity|]. split; [auto|]. simpl.
  intros k. destruct (decide (ws_Key w = k)) as [<-|Hne].
  - rewrite Hstored, lookup_insert_eq. eauto.
  - rewrite lookup_insert_ne by exact Hne. destruct (workspaces c !! k); eauto.
Qed.

(** X24: a pass over the fake cluster never removes or changes a command,
    never removes or overwrites a stored claim, and never adds or removes a
    workspace or changes the metadata or the spec of one: all it can change
    is the set of claims, by adding, and the status of workspaces. *)
Theorem pass_keeps_cluster (s : Scheme) (request : NamespacedName) (c : Cluster) :
  commands (after (pass s request c)) = commands c
  /\ (forall k p, pvcs c !! k = Some p -> pvcs (after (pass s request c)) !! k = Some p)
  /\ (forall k w0,
        workspaces c !! k = Some w0 ->
        exists w1, workspaces (after (pass s request c)) !! k = Some w1
                   /\ ws_ObjectMeta w1 = ws_ObjectMeta w0
                   /\ ws_Spec w1 = ws_Spec w0)
  /\ (forall k, workspaces c !! k = None ->
                workspaces (after (pass s request c)) !! k = None).
Proof.
  assert (Hkeeps : keeps c (after (pass s request c))).
  { unfold pass, after, Reconcile, bind, doGetWorkspace, doGetPVC, doCreate, doList,
      doStatusUpdate, ret. simpl.
    destruct (fakeGetWorkspace request c) as [e|instance]; simpl.
    { destruct (IsNotFound e); apply keeps_refl. }
    destruct (SetControllerReference _ _ _) as [e|pvc]; simpl; [apply keeps_refl|].
    destruct (fakeGetPVC _ c) as [e|found]; simpl.
    - destruct (IsNotFound e); simpl; [|apply keeps_refl].
      pose proof (fakeCreate_keeps pvc c) as Hcreate.
      destruct (fakeCreate pvc c) as [[e'|] c']; exact Hcreate.
    - unfold fakeList. destruct (0 <? length _)%nat; simpl; [|apply keeps_refl].
      pose proof (fakeStatusUpdate_keeps
                    (withQueue instance
                       (appendNames (List.filter (inNamespace (fst request)) (commands c))))
                    c) as Hupdate.
      destruct (fakeStatusUpdate _ c) as [e' c']. exact Hupdate. }
  destruct Hkeeps as (Hcmds & Hpvcs & Hws).
  split; [exact Hcmds|]. split; [exact Hpvcs|]. split.
  - intros k w0 Hk. specialize (Hws k). rewrite Hk in Hws. exact Hws.
  - intros k Hk. specialize (Hws k). rewrite Hk in Hws. exact Hws.
Qed.

Lemma pass_keeps_cluster_witness :
  exists w1,
    workspaces (after (pass registeredScheme request1 (settled ["plan-0"] [plan1])))
      !! request1 = Some w1
    /\ ws_ObjectMeta w1 = ws_ObjectMeta (workspaceWithQueue ["plan-0"])
    /\ ws_Spec w1 = ws_Spec (workspaceWithQueue ["plan-0"]).
Proof.
  destruct (pass_keeps_cluster registeredScheme request1 (settled ["plan-0"] [plan1]))
    as (_ & _ & Hkept & _).
  apply Hkept. reflexivity.
Defined.

End PassFrame.
